(** * amp-access-fewcents 0.1: the FewcentsVendor access adapter

    A shallow embedding of [extensions/amp-access-fewcents/0.1/fewcents-impl.js].

    The adapter is a class with mutable private fields that calls into host
    services (access source, xhr, timer, vsync, DOM, Intl).  The embedding
    threads one explicit [State] (the instance fields plus the part of the
    page the adapter touches) through a state-and-exception monad [M].

    Promises are run to completion in program order: a computation of type
    [M A] that ends in [Normal a] is a call that returned [a] or a promise
    fulfilled with [a]; one that ends in [Throw e] is a call that threw [e]
    or a promise rejected with [e].  Work the host defers (the vsync mutate
    phase, [then] callbacks) runs before the next call into the adapter, so
    overlapping [authorize()] calls are outside the model. *)

From Stdlib Require Import List String Ascii ZArith QArith Bool Lia DecimalString.
From Stdlib Require Import RelationClasses.
Import ListNotations.
Open Scope list_scope.
Open Scope string_scope.
Open Scope Z_scope.
Set Warnings "-register-all".

(** * JavaScript values *)

(** JSON-shaped values, as delivered by [Response.json()].  Numbers are kept
    as exact rationals; rounding to IEEE doubles is not modelled.  An object
    is its list of own properties, in insertion order. *)
Inductive JsValue : Type :=
| JUndefined
| JNull
| JBool (b : bool)
| JNum (q : Q)
| JStr (s : string)
| JArr (items : list JsValue)
| JObj (fields : list (string * JsValue)).

Definition JsObject : Type := list (string * JsValue).

(** [dict()] of src/utils/object: a fresh object without properties. *)
Definition dict : JsObject := [].

(** Own-property lookup: [o[key]], [undefined] when the key is absent. *)
Fixpoint obj_get (o : JsObject) (key : string) : JsValue :=
  match o with
  | [] => JUndefined
  | (k, v) :: rest => if String.eqb k key then v else obj_get rest key
  end.

(** Property assignment [o[key] = v]: overwrite in place, or add at the end. *)
Fixpoint obj_set (o : JsObject) (key : string) (v : JsValue) : JsObject :=
  match o with
  | [] => [(key, v)]
  | (k, w) :: rest =>
      if String.eqb k key then (k, v) :: rest else (k, w) :: obj_set rest key v
  end.

(** [Object.assign(target, source)]: copy the own properties of [source]. *)
Definition Object_assign (target source : JsObject) : JsObject :=
  fold_left (fun o kv => obj_set o (fst kv) (snd kv)) source target.

(** ToBoolean. *)
Definition to_boolean (v : JsValue) : bool :=
  match v with
  | JUndefined | JNull => false
  | JBool b => b
  | JNum q => negb (Qeq_bool q 0)
  | JStr s => negb (String.eqb s "")
  | JArr _ | JObj _ => true
  end.

Definition is_nullish (v : JsValue) : bool :=
  match v with
  | JUndefined | JNull => true
  | _ => false
  end.

(** [v === n] for a number literal [n]. *)
Definition strict_eq_num (v : JsValue) (n : Z) : bool :=
  match v with
  | JNum q => Qeq_bool q (inject_Z n)
  | _ => false
  end.

(** [v.key] on a value that is not [null] or [undefined].  The adapter only
    reads the keys status, access, response, purchase_options, price,
    currency, amount, purchase_url and identify_url, none of which is a
    built-in property of a string, number, boolean or array, so the read on
    such a value is [undefined]. *)
Definition member (v : JsValue) (key : string) : JsValue :=
  match v with
  | JObj fields => obj_get fields key
  | _ => JUndefined
  end.

(** Optional chaining [v?.key]. *)
Definition opt_member (v : JsValue) (key : string) : JsValue :=
  if is_nullish v then JUndefined else member v key.

(** * Errors and HTTP responses *)

(** The response object handed out by the xhr service.  [json_body] is what
    [response.json()] settles to: [None] when the body is not valid JSON. *)
Record Response : Type := mkResponse {
  status : Z;
  json_body : option JsValue
}.

Inductive ErrorKind : Type :=
| UserError      (* user().createError / user().assert... *)
| TimeoutError   (* raised by the timer service *)
| TypeError
| RangeError
| SyntaxError
| OtherError.

(** What can be thrown or be a rejection reason: an [Error] object, possibly
    carrying the [response] property the xhr service adds, or any other
    value. *)
Inductive Thrown : Type :=
| ThrownError (kind : ErrorKind) (message : string) (response : option Response)
| ThrownValue (v : JsValue).

Inductive Completion (A : Type) : Type :=
| Normal (a : A)
| Throw (e : Thrown).
Arguments Normal {A} a.
Arguments Throw {A} e.

(** [v.key] with the TypeError JavaScript raises on [null]/[undefined]. *)
Definition get_member (v : JsValue) (key : string) : Completion JsValue :=
  if is_nullish v
  then Throw (ThrownError TypeError ("Cannot read properties of null or undefined: " ++ key) None)
  else Normal (member v key).

(** * encodeURIComponent *)

(** Strings are byte strings holding UTF-8, so [encodeURIComponent] escapes
    byte by byte: everything except A-Z a-z 0-9 - _ . ! ~ * ' ( ) becomes
    a percent sign and two upper-case hexadecimal digits. *)
Definition uri_unreserved (c : ascii) : bool :=
  let n := nat_of_ascii c in
  ((65 <=? n) && (n <=? 90))%nat || ((97 <=? n) && (n <=? 122))%nat
  || ((48 <=? n) && (n <=? 57))%nat
  || existsb (Nat.eqb n) [45; 95; 46; 33; 126; 42; 39; 40; 41]%nat.

Definition hex_digit (n : nat) : ascii :=
  if (n <? 10)%nat then ascii_of_nat (48 + n) else ascii_of_nat (55 + n).

Definition percent_encode (c : ascii) : string :=
  let n := nat_of_ascii c in
  String "%" (String (hex_digit (n / 16)) (String (hex_digit (n mod 16)) EmptyString)).

Fixpoint encodeURIComponent (s : string) : string :=
  match s with
  | EmptyString => EmptyString
  | String c rest =>
      (if uri_unreserved c then String c EmptyString else percent_encode c)
      ++ encodeURIComponent rest
  end.

(** * The adapter's data *)

Definition TAG : string := "amp-access-fewcents".

Definition CONFIG_URL : string := "http://localhost:9000".

Definition CONFIG_BASE_PATH : string :=
  "/api/v1/amp/?" ++
  "article_url=CANONICAL_URL" ++
  "&amp_reader_id=READER_ID" ++
  "&return_url=RETURN_URL".

Definition AUTHORIZATION_TIMEOUT : Z := 3000.

Definition DEFAULT_MESSAGES : JsObject :=
  [ ("defaultButton", JStr "Unlock Article");
    ("alreadyPurchasedLink", JStr "I already bought this") ].

(** [fewcentsConfig_0_2_Def], the adapter configuration returned by
    [accessSource.getAdapterConfig()]; an optional field is [None] when it
    is not configured. *)
Record fewcentsConfig_0_2_Def : Type := mkConfig {
  articleTitleSelector : string;
  configUrl : option string;
  articleId : option string;
  scrollToTopAfterAuth : option bool;
  locale : option string;
  localeMessages : option JsObject;
  region : option string;
  sandbox : option bool
}.

(** Truthiness of an optional string: [undefined] and the empty string are
    falsy. *)
Definition truthy_string (o : option string) : bool :=
  match o with
  | Some s => negb (String.eqb s "")
  | None => false
  end.

(** [o || d] for an optional string. *)
Definition or_string (o : option string) (d : string) : string :=
  match o with
  | Some s => if String.eqb s "" then d else s
  | None => d
  end.

Definition NodeId : Type := nat.
Definition ListenerId : Type := nat.

(** An element attached to the page: its identity, tag, class, the value
    assigned to [textContent] (the empty string when never assigned) and
    its children. *)
Inductive Element : Type :=
| El (node : NodeId) (tagName className : string) (textContent : JsValue)
     (children : list Element).

(** The two click callbacks the adapter registers. *)
Inductive Handler : Type :=
| PurchaseClick                          (* the arrow function passed to [listen] in renderPurchaseOverlay_ *)
| AlreadyPurchasedClick (href : JsValue) (* the arrow function of createAlreadyPurchasedLink_, closing over [href] *).

Record Listener : Type := mkListener {
  listener_id : ListenerId;
  target : NodeId;
  eventType : string;
  handler : Handler
}.

(** Calls into the host that are visible from outside the adapter, in the
    order they happen. *)
Inductive Event : Type :=
| EvBuildUrl (url : JsValue) (useAuthData : bool)
| EvGetLoginUrl (url : string)
| EvFetchJson (url : string) (credentials : string)
| EvListen (l : ListenerId) (target : NodeId)
| EvUnlisten (l : ListenerId)
| EvRemoveChildren (container : string)
| EvAppendChild (container : string) (child : NodeId)
| EvPreventDefault (ev : nat)
| EvLoginWithUrl (url : string)
| EvUncaught (e : Thrown).

(** The instance fields of [FewcentsVendor].  A field that holds a node or
    a disposer function holds its identity. *)
Record Vendor : Type := mkVendor {
  fewcentsConfig_ : fewcentsConfig_0_2_Def;
  purchaseConfig_ : JsValue;
  purchaseButtonListener_ : option ListenerId;
  alreadyPurchasedListener_ : option ListenerId;
  containerEmpty_ : bool;
  innerContainer_ : option NodeId;
  purchaseButton_ : option NodeId;
  currentLocale_ : string;
  i18n_ : JsObject;
  purchaseConfigBaseUrl_ : string
}.

(** The part of the page and of the host the adapter works on: the elements
    that carry an id (with their children), the click listeners currently
    registered through [listen], the next unused node/listener identity,
    and the trace of host calls. *)
Record Page : Type := mkPage {
  document : list (string * list Element);
  listeners : list Listener;
  next_id : nat;
  trace : list Event
}.

Record State : Type := mkState {
  this : Vendor;
  page : Page
}.

Definition with_this (f : Vendor -> Vendor) (s : State) : State :=
  mkState (f (this s)) (page s).

Definition with_page (f : Page -> Page) (s : State) : State :=
  mkState (this s) (f (page s)).

Definition set_purchaseConfig_ (x : JsValue) (v : Vendor) : Vendor :=
  mkVendor (fewcentsConfig_ v) x (purchaseButtonListener_ v)
    (alreadyPurchasedListener_ v) (containerEmpty_ v) (innerContainer_ v)
    (purchaseButton_ v) (currentLocale_ v) (i18n_ v) (purchaseConfigBaseUrl_ v).

Definition set_purchaseButtonListener_ (x : option ListenerId) (v : Vendor) : Vendor :=
  mkVendor (fewcentsConfig_ v) (purchaseConfig_ v) x
    (alreadyPurchasedListener_ v) (containerEmpty_ v) (innerContainer_ v)
    (purchaseButton_ v) (currentLocale_ v) (i18n_ v) (purchaseConfigBaseUrl_ v).

Definition set_alreadyPurchasedListener_ (x : option ListenerId) (v : Vendor) : Vendor :=
  mkVendor (fewcentsConfig_ v) (purchaseConfig_ v) (purchaseButtonListener_ v)
    x (containerEmpty_ v) (innerContainer_ v)
    (purchaseButton_ v) (currentLocale_ v) (i18n_ v) (purchaseConfigBaseUrl_ v).

Definition set_containerEmpty_ (x : bool) (v : Vendor) : Vendor :=
  mkVendor (fewcentsConfig_ v) (purchaseConfig_ v) (purchaseButtonListener_ v)
    (alreadyPurchasedListener_ v) x (innerContainer_ v)
    (purchaseButton_ v) (currentLocale_ v) (i18n_ v) (purchaseConfigBaseUrl_ v).

Definition set_innerContainer_ (x : option NodeId) (v : Vendor) : Vendor :=
  mkVendor (fewcentsConfig_ v) (purchaseConfig_ v) (purchaseButtonListener_ v)
    (alreadyPurchasedListener_ v) (containerEmpty_ v) x
    (purchaseButton_ v) (currentLocale_ v) (i18n_ v) (purchaseConfigBaseUrl_ v).

Definition set_purchaseButton_ (x : option NodeId) (v : Vendor) : Vendor :=
  mkVendor (fewcentsConfig_ v) (purchaseConfig_ v) (purchaseButtonListener_ v)
    (alreadyPurchasedListener_ v) (containerEmpty_ v) (innerContainer_ v)
    x (currentLocale_ v) (i18n_ v) (purchaseConfigBaseUrl_ v).

Definition set_document (x : list (string * list Element)) (p : Page) : Page :=
  mkPage x (listeners p) (next_id p) (trace p).

Definition set_listeners (x : list Listener) (p : Page) : Page :=
  mkPage (document p) x (next_id p) (trace p).

Definition set_next_id (x : nat) (p : Page) : Page :=
  mkPage (document p) (listeners p) x (trace p).

Definition add_event (e : Event) (p : Page) : Page :=
  mkPage (document p) (listeners p) (next_id p) (trace p ++ [e]).

(** * The monad of adapter code *)

Definition M (A : Type) : Type := State -> State * Completion A.

Definition ret {A} (a : A) : M A := fun s => (s, Normal a).

Definition throw {A} (e : Thrown) : M A := fun s => (s, Throw e).

Definition bind {A B} (m : M A) (k : A -> M B) : M B :=
  fun s =>
    match m s with
    | (s', Normal a) => k a s'
    | (s', Throw e) => (s', Throw e)
    end.

Notation "x <- m ;; k" := (bind m (fun x => k))
  (at level 61, m at next level, right associativity).
Notation "m ;; k" := (bind m (fun _ => k))
  (at level 61, right associativity).

Definition lift {A} (c : Completion A) : M A := fun s => (s, c).

Definition gets {A} (f : Vendor -> A) : M A := fun s => (s, Normal (f (this s))).

Definition update (f : Vendor -> Vendor) : M unit :=
  fun s => (with_this f s, Normal tt).

Definition log (e : Event) : M unit :=
  fun s => (with_page (add_event e) s, Normal tt).

(** [promise.then(onFulfilled, onRejected)], and [try]/[catch]. *)
Definition then_ {A B} (m : M A) (onFulfilled : A -> M B)
    (onRejected : Thrown -> M B) : M B :=
  fun s =>
    match m s with
    | (s', Normal a) => onFulfilled a s'
    | (s', Throw e) => onRejected e s'
    end.

(** [promise.catch(onRejected)]. *)
Definition catch_ {A} (m : M A) (onRejected : Thrown -> M A) : M A :=
  then_ m ret onRejected.

(** A promise nobody waits for, or an event callback: the work runs, its
    result is dropped and a failure is only reported as uncaught. *)
Definition detached {A} (m : M A) : M unit :=
  then_ m (fun _ => ret tt) (fun e => log (EvUncaught e)).

Definition exec {A} (m : M A) (s : State) : State := fst (m s).
Definition result {A} (m : M A) (s : State) : Completion A := snd (m s).

(** * Host services *)

(** The access source of amp-access ([buildUrl], [getLoginUrl]) is a
    collaborator of the adapter: each call settles to a URL or fails. *)
Class AccessSource : Type := {
  buildUrl : JsValue -> bool -> Completion string;
  getLoginUrl : string -> Completion string
}.

(** [new Intl.NumberFormat(locale, {style: 'currency', currency}).format(amount)]:
    the platform's formatter, which returns the text or throws. *)
Class Intl : Type := {
  NumberFormat_currency : string -> JsValue -> JsValue -> Completion string
}.

(** What the network does with the one request of an [authorize()] call:
    how long it takes (in ms) and what comes back. *)
Inductive HttpResult : Type :=
| HttpResponse (r : Response)
| NetworkFailure (e : Thrown).

Record NetReply : Type := mkReply {
  elapsed : Z;
  outcome : HttpResult
}.

(** Modelled from the spec: the xhr service's [fetchJson] is not part of
    the adapter.  It issues the JSON GET; a 2xx response fulfils the promise
    with the response, any other status rejects with an error that carries
    the response (the adapter's rejection handler reads [err.response]), and
    a transport failure rejects with its error. *)
Definition xhr_fetchJson (url credentials : string) (reply : HttpResult) : M Response :=
  log (EvFetchJson url credentials) ;;
  match reply with
  | HttpResponse r =>
      if (200 <=? status r) && (status r <? 300)
      then ret r
      else throw (ThrownError UserError "HTTP error" (Some r))
  | NetworkFailure e => throw e
  end.

Definition timeoutError : Thrown := ThrownError TimeoutError "timeout" None.

(** Modelled from the spec: the timer service's [timeoutPromise(delay, race)]
    is not part of the adapter.  The raced work has been started; if it
    needs more than [delay] ms the promise rejects with a timeout error,
    otherwise it settles like the raced promise. *)
Definition timer_timeoutPromise {A} (delay took : Z) (race : M A) : M A :=
  fun s =>
    match race s with
    | (s', c) => if delay <? took then (s', Throw timeoutError) else (s', c)
    end.

(** [response.json()]. *)
Definition Response_json (r : Response) : M JsValue :=
  match json_body r with
  | Some v => ret v
  | None => throw (ThrownError SyntaxError "Unexpected end of JSON input" None)
  end.

(** Modelled from the spec: the vsync service's [mutatePromise(mutator)] is
    not part of the adapter.  The mutator runs in the next mutate phase; an
    error it throws is reported by the host and the returned promise is
    fulfilled all the same. *)
Definition vsync_mutatePromise (mutator : M unit) : M unit :=
  then_ mutator ret (fun e => log (EvUncaught e)).

(** [user().createError(message)]. *)
Definition user_createError (message : string) : Thrown :=
  ThrownError UserError message None.

(** Modelled from the spec: [user().assertElement(el, message)] of src/log
    returns the element, or throws a user error with the message. *)
Definition user_assertElement (el : option string) (message : string) : M string :=
  match el with
  | Some e => ret e
  | None => throw (user_createError message)
  end.

Fixpoint lookup_id (doc : list (string * list Element)) (id : string)
    : option (list Element) :=
  match doc with
  | [] => None
  | (k, kids) :: rest => if String.eqb k id then Some kids else lookup_id rest id
  end.

Fixpoint replace_children (doc : list (string * list Element)) (id : string)
    (kids : list Element) : list (string * list Element) :=
  match doc with
  | [] => []
  | (k, old) :: rest =>
      if String.eqb k id then (k, kids) :: rest
      else (k, old) :: replace_children rest id kids
  end.

(** [ampdoc.getElementById(id)]; an element is handed around by its id. *)
Definition ampdoc_getElementById (id : string) : M (option string) :=
  fun s =>
    (s, Normal (match lookup_id (document (page s)) id with
                | Some _ => Some id
                | None => None
                end)).

(** [removeChildren(parent)] of src/dom. *)
Definition removeChildren (parent : string) : M unit :=
  fun s =>
    (with_page (fun p => add_event (EvRemoveChildren parent)
                  (set_document (replace_children (document p) parent []) p)) s,
     Normal tt).

Definition element_node (e : Element) : NodeId :=
  match e with El n _ _ _ _ => n end.

(** [parent.appendChild(child)] on an element of the page. *)
Definition appendChild (parent : string) (child : Element) : M unit :=
  fun s =>
    let doc := document (page s) in
    let kids := match lookup_id doc parent with Some k => k | None => [] end in
    (with_page (fun p => add_event (EvAppendChild parent (element_node child))
                  (set_document (replace_children doc parent (kids ++ [child])) p)) s,
     Normal tt).

Definition fresh : M nat :=
  fun s => (with_page (fun p => set_next_id (S (next_id p)) p) s,
            Normal (next_id (page s))).

(** [listen(element, eventType, listener)] of src/event-helper: registers
    the listener and returns the function that removes it again. *)
Definition listen (element : NodeId) (type : string) (h : Handler) : M ListenerId :=
  l <- fresh ;;
  (fun s => (with_page (fun p => add_event (EvListen l element)
               (set_listeners (listeners p ++ [mkListener l element type h]) p)) s,
             Normal l)).

(** Calling the function returned by [listen]. *)
Definition unlisten (l : ListenerId) : M unit :=
  fun s =>
    (with_page (fun p => add_event (EvUnlisten l)
       (set_listeners
          (filter (fun x => negb (Nat.eqb (listener_id x) l)) (listeners p)) p)) s,
     Normal tt).

(** * FewcentsVendor *)

(** The result object [{access: ...}] of [authorize()]. *)
Record AccessResult : Type := mkAccess { access : JsValue }.

(** [getConfigUrl_()]. *)
Definition getConfigUrl_ (config : fewcentsConfig_0_2_Def) : string := CONFIG_URL.

(** The constructor.  (It also fetches the timer, vsync and xhr services and
    installs the stylesheet, which leave no trace in the fields.) *)
Definition constructor (config : fewcentsConfig_0_2_Def) : Vendor :=
  {| fewcentsConfig_ := config;
     purchaseConfig_ := JNull;
     purchaseButtonListener_ := None;
     alreadyPurchasedListener_ := None;
     containerEmpty_ := true;
     innerContainer_ := None;
     purchaseButton_ := None;
     currentLocale_ := or_string (locale config) "en";
     i18n_ :=
       Object_assign (Object_assign dict DEFAULT_MESSAGES)
         (match localeMessages config with Some m => m | None => dict end);
     purchaseConfigBaseUrl_ :=
       (getConfigUrl_ config ++ CONFIG_BASE_PATH) ++
       (if truthy_string (articleId config)
        then "&article_id=" ++
             encodeURIComponent
               (match articleId config with Some a => a | None => "" end)
        else "") |}.

(** A vendor just built, on a page. *)
Definition new_vendor (config : fewcentsConfig_0_2_Def)
    (doc : list (string * list Element)) (first_id : nat) : State :=
  mkState (constructor config) (mkPage doc [] first_id []).

Section FewcentsVendor.

Context {accessSource_ : AccessSource} {intl : Intl}.

Definition accessSource_buildUrl (url : JsValue) (useAuthData : bool) : M string :=
  log (EvBuildUrl url useAuthData) ;; lift (buildUrl url useAuthData).

Definition accessSource_getLoginUrl (url : string) : M string :=
  log (EvGetLoginUrl url) ;; lift (getLoginUrl url).

Definition accessSource_loginWithUrl (url : string) : M unit :=
  log (EvLoginWithUrl url).

(** [getPurchaseConfig_()]; [reply] is the network's answer to the request. *)
Definition getPurchaseConfig_ (reply : NetReply) : M JsValue :=
  url <- gets purchaseConfigBaseUrl_ ;;
  url <- accessSource_buildUrl (JStr url) (* useAuthData *) false ;;
  url <- accessSource_getLoginUrl url ;;
  res <- timer_timeoutPromise AUTHORIZATION_TIMEOUT (elapsed reply)
           (xhr_fetchJson url "include" (outcome reply)) ;;
  Response_json res.

(** [createElement_(name)]: a new, detached element. *)
Definition createElement_ (name : string) : M NodeId := fresh.

(** [getContainer_()]. *)
Definition getContainer_ : M string :=
  let id := TAG ++ "-dialog" in
  dialogContainer <- ampdoc_getElementById id ;;
  user_assertElement dialogContainer ("No element found with id " ++ id).

(** The function [emptyContainer_()] hands to [vsync_.mutatePromise]. *)
Definition emptyContainer_mutator : M unit :=
  update (set_containerEmpty_ true) ;;
  update (set_innerContainer_ None) ;;
  container <- getContainer_ ;;
  removeChildren container.

(** [emptyContainer_()]. *)
Definition emptyContainer_ : M unit :=
  empty <- gets containerEmpty_ ;;
  if empty then ret tt
  else
    (l <- gets purchaseButtonListener_ ;;
     match l with
     | Some dispose => unlisten dispose ;; update (set_purchaseButtonListener_ None)
     | None => ret tt
     end) ;;
    (l <- gets alreadyPurchasedListener_ ;;
     match l with
     | Some dispose => unlisten dispose ;; update (set_alreadyPurchasedListener_ None)
     | None => ret tt
     end) ;;
    vsync_mutatePromise emptyContainer_mutator.

(** [handlePurchase_(ev, purchaseUrl)].  The method declares two
    parameters; [surplus] are the further arguments of a call, which it
    never looks at. *)
Definition handlePurchase_ (ev : nat) (purchaseUrl : JsValue)
    (surplus : list JsValue) : M unit :=
  log (EvPreventDefault ev) ;;
  url <- accessSource_buildUrl purchaseUrl (* useAuthData *) false ;;
  accessSource_loginWithUrl url.

(** The body of a registered click callback. *)
Definition handler_body (h : Handler) (ev : nat) : M unit :=
  match h with
  | PurchaseClick =>
      purchaseConfig <- gets purchaseConfig_ ;;
      purchase_options <- lift (get_member purchaseConfig "purchase_options") ;;
      purchase_url <- lift (get_member purchase_options "purchase_url") ;;
      handlePurchase_ ev purchase_url []
  | AlreadyPurchasedClick href =>
      handlePurchase_ ev href [JStr "alreadyPurchased"]
  end.

(** [createAlreadyPurchasedLink_(href)]. *)
Definition createAlreadyPurchasedLink_ (href : JsValue) : M Element :=
  button <- createElement_ "button" ;;
  i18n <- gets i18n_ ;;
  l <- listen button "click" (AlreadyPurchasedClick href) ;;
  update (set_alreadyPurchasedListener_ (Some l)) ;;
  ret (El button "button" (TAG ++ "-purchase-button")
         (obj_get i18n "alreadyPurchasedLink") []).

(** [renderPurchaseOverlay_()].  The elements are created in the order of
    the source; the tree is put together where it is attached to the page,
    no part of it being reachable from the page before. *)
Definition renderPurchaseOverlay_ : M unit :=
  dialogContainer <- getContainer_ ;;
  innerContainer <- createElement_ "div" ;;
  update (set_innerContainer_ (Some innerContainer)) ;;
  leftContainer <- createElement_ "div" ;;
  leftLogo <- createElement_ "div" ;;
  rightContainer <- createElement_ "div" ;;
  logoContainer <- createElement_ "div" ;;
  fcLogoContainer <- createElement_ "div" ;;
  description <- createElement_ "div" ;;
  subDescription <- createElement_ "div" ;;
  price <- createElement_ "div" ;;
  purchaseConfig <- gets purchaseConfig_ ;;
  let option_price :=
    opt_member (opt_member purchaseConfig "purchase_options") "price" in
  formatted <- lift (NumberFormat_currency "en-EN"
                       (opt_member option_price "currency")
                       (opt_member option_price "amount")) ;;
  purchaseButton <- createElement_ "button" ;;
  i18n <- gets i18n_ ;;
  update (set_purchaseButton_ (Some purchaseButton)) ;;
  l <- listen purchaseButton "click" PurchaseClick ;;
  update (set_purchaseButtonListener_ (Some l)) ;;
  buttonsContainer <- createElement_ "div" ;;
  purchaseConfig <- gets purchaseConfig_ ;;
  identify_url <- lift (get_member purchaseConfig "identify_url") ;;
  alreadyPurchased <- createAlreadyPurchasedLink_ identify_url ;;
  appendChild dialogContainer
    (El innerContainer "div" (TAG ++ "-container") (JStr "")
       [ El leftContainer "div" (TAG ++ "-left-container") (JStr "")
           [ El leftLogo "div" (TAG ++ "-left-logo-container") (JStr "") [] ];
         El rightContainer "div" (TAG ++ "-right-container") (JStr "")
           [ El logoContainer "div" (TAG ++ "-logo-container") (JStr "")
               [ El fcLogoContainer "div" (TAG ++ "-fc-logo-container")
                   (JStr "FewÂ¢ents") [] ];
             El description "div" (TAG ++ "-description-container")
               (JStr "Get access to premium content now!") [];
             El subDescription "div" (TAG ++ "-subDescription-container")
               (JStr "One login. Many publishers. No subscription.") [];
             El price "div" (TAG ++ "-price") (JStr (formatted ++ "/article")) [];
             El buttonsContainer "div" (TAG ++ "-buttons-container") (JStr "")
               [ El purchaseButton "button" (TAG ++ "-purchase-button primary")
                   (obj_get i18n "defaultButton") [];
                 alreadyPurchased ] ] ]) ;;
  update (set_containerEmpty_ false).

Definition noMatchingConfiguration : Thrown :=
  user_createError
    ("No merchant domains have been matched for this " ++
     "article, or no paid content configurations are setup.").

(** The fulfilment callback of [authorize()]; [response] is what
    [getPurchaseConfig_()] resolved with. *)
Definition authorize_onFulfilled (response : JsValue) : M AccessResult :=
  response_status <- lift (get_member response "status") ;;
  if strict_eq_num response_status 204 then throw noMatchingConfiguration
  else
    detached emptyContainer_ ;;
    response_access <- lift (get_member response "access") ;;
    ret (mkAccess response_access).

(** The rejection callback of [authorize()]. *)
Definition authorize_onRejected (err : Thrown) : M AccessResult :=
  match err with
  | ThrownError _ _ None => throw err
  | ThrownError _ _ (Some response) =>
      if negb (status response =? 402) then throw err
      else
        responseJson <- catch_ (Response_json response)
                          (fun _ => ret JUndefined) ;;
        update (set_purchaseConfig_ responseJson) ;;
        (* empty before rendering, in case authorization is being
           called again with the same state *)
        detached (emptyContainer_ ;; renderPurchaseOverlay_) ;;
        ret (mkAccess (JBool false))
  | ThrownValue v =>
      if negb (to_boolean v) then throw err
      else if negb (to_boolean (member v "response")) then throw err
      else if negb (strict_eq_num (member (member v "response") "status") 402)
      then throw err
      else throw (ThrownError TypeError "response.json is not a function" None)
  end.

(** [authorize()]. *)
Definition authorize (reply : NetReply) : M AccessResult :=
  then_ (getPurchaseConfig_ reply) authorize_onFulfilled authorize_onRejected.

(** [renderContainer()]. *)
Definition renderContainer : M string :=
  dialogContainer <- getContainer_ ;;
  element <- createElement_ "div" ;;
  ret dialogContainer.

(** [pingback()]. *)
Definition pingback : M unit := ret tt.

(** A click on the element [node] with the event object [ev]: the browser
    calls every listener registered on the element. *)
Fixpoint call_listeners (ls : list Listener) (node : NodeId) (ev : nat) : M unit :=
  match ls with
  | [] => ret tt
  | l :: rest =>
      (if Nat.eqb (target l) node
       then detached (handler_body (handler l) ev)
       else ret tt) ;;
      call_listeners rest node ev
  end.

Definition click (node : NodeId) (ev : nat) : M unit :=
  fun s => call_listeners (listeners (page s)) node ev s.

End FewcentsVendor.

(** * The specification's wording of two computations

    These two definitions follow the prose specification, not the source;
    they are what the source's computations are compared with. *)

(** The authorization URL template as specified: the configured [configUrl]
    when there is one, the default otherwise; the fixed path; the article id
    when one is configured. *)
Definition spec_authorization_url (config : fewcentsConfig_0_2_Def) : string :=
  (match configUrl config with
   | Some base => base
   | None => "http://localhost:9000"
   end ++ CONFIG_BASE_PATH) ++
  match articleId config with
  | Some a => "&article_id=" ++ encodeURIComponent a
  | None => ""
  end.

(** The first purchase option of a purchase config: the first element when
    [purchase_options] is an array, the option itself when it is a single
    object. *)
Definition spec_first_option (purchaseConfig : JsValue) : JsValue :=
  match opt_member purchaseConfig "purchase_options" with
  | JArr (first :: _) => first
  | other => other
  end.

(** The price line as specified: the first option's amount and currency in
    the adapter's current locale, per article. *)
Definition spec_price_text {intl : Intl} (v : Vendor) : Completion string :=
  let option_price := opt_member (spec_first_option (purchaseConfig_ v)) "price" in
  match NumberFormat_currency (currentLocale_ v)
          (opt_member option_price "currency")
          (opt_member option_price "amount") with
  | Normal text => Normal (text ++ "/article")
  | Throw e => Throw e
  end.

(** * Sample collaborators

    Concrete stand-ins for the host services, used to run the adapter on
    examples. *)

(** An access source that appends a reader id and has no login rewriting. *)
Definition sampleAccessSource : AccessSource :=
  {| buildUrl := fun url _ =>
       match url with
       | JStr u => Normal (u ++ "#rid=reader-1")
       | _ => Throw (ThrownError TypeError "url is not a string" None)
       end;
     getLoginUrl := fun url => Normal url |}.

Definition two_digits (n : Z) : string :=
  (if n <? 10 then "0" else "") ++ NilZero.string_of_int (Z.to_int n).

(** A number with two decimals, e.g. 1.50 or 1,50. *)
Definition sample_amount (separator : string) (amount : JsValue) : string :=
  match amount with
  | JNum q =>
      let cents := (Qnum q * 100) / Zpos (Qden q) in
      NilZero.string_of_int (Z.to_int (cents / 100)) ++ separator ++
      two_digits (cents mod 100)
  | _ => "NaN"
  end.

(** A small currency formatter with the two traits of [Intl.NumberFormat]
    the development relies on: it throws a TypeError when the currency is
    [undefined] (and a RangeError when it is not a three-letter code), and
    its output depends on the locale. *)
Definition sampleIntl : Intl :=
  {| NumberFormat_currency := fun locale currency amount =>
       match currency with
       | JUndefined =>
           Throw (ThrownError TypeError
                    "Currency code is required with currency style." None)
       | JStr code =>
           if Nat.eqb (String.length code) 3
           then Normal (if String.prefix "de" locale
                        then sample_amount "," amount ++ " " ++ code
                        else code ++ " " ++ sample_amount "." amount)
           else Throw (ThrownError RangeError "Invalid currency code" None)
       | _ => Throw (ThrownError RangeError "Invalid currency code" None)
       end |}.

(** A purchase config as the rendering code reads it. *)
Definition samplePurchaseConfig : JsValue :=
  JObj [ ("identify_url", JStr "https://vendor.example/identify");
         ("purchase_options",
          JObj [ ("purchase_url", JStr "https://vendor.example/buy");
                 ("price", JObj [ ("amount", JNum (3 # 2));
                                  ("currency", JStr "EUR") ]) ]) ].

Definition sampleConfig : fewcentsConfig_0_2_Def :=
  {| articleTitleSelector := "h1";
     configUrl := None;
     articleId := None;
     scrollToTopAfterAuth := None;
     locale := None;
     localeMessages := None;
     region := None;
     sandbox := None |}.

(** A page whose only element with an id is the empty dialog container. *)
Definition samplePage : list (string * list Element) :=
  [ ("amp-access-fewcents-dialog", []) ].

Definition denial (body : option JsValue) : NetReply :=
  mkReply 120 (HttpResponse (mkResponse 402 body)).

(** * Observations used in the statements *)

Definition dialog_id : string := "amp-access-fewcents-dialog".

(** The children of the dialog container, [None] when the page has no
    element with that id. *)
Definition dialog (s : State) : option (list Element) :=
  lookup_id (document (page s)) dialog_id.

(** The state after the three host calls every request starts with: the
    URL decoration, the login-URL resolution and the fetch. *)
Definition requested (s : State) (decorated final : string) : State :=
  with_page (fun p =>
    add_event (EvFetchJson final "include")
      (add_event (EvGetLoginUrl decorated)
         (add_event (EvBuildUrl (JStr (purchaseConfigBaseUrl_ (this s))) false) p))) s.

Definition element_class (e : Element) : string :=
  match e with El _ _ c _ _ => c end.

Definition element_text (e : Element) : JsValue :=
  match e with El _ _ _ t _ => t end.

(** The first element of class [cls] in a tree, in document order. *)
Fixpoint find_class (cls : string) (e : Element) : option Element :=
  match e with
  | El _ _ c _ kids =>
      if String.eqb c cls then Some e
      else
        (fix first_in (l : list Element) : option Element :=
           match l with
           | [] => None
           | k :: rest =>
               match find_class cls k with
               | Some x => Some x
               | None => first_in rest
               end
           end) kids
  end.

(** The text of the price line of an overlay. *)
Definition price_text (overlay : Element) : option JsValue :=
  match find_class (TAG ++ "-price") overlay with
  | Some e => Some (element_text e)
  | None => None
  end.

(** How many overlays the dialog container holds. *)
Definition overlay_count (kids : option (list Element)) : nat :=
  match kids with
  | Some l =>
      List.length (filter (fun e => String.eqb (element_class e) (TAG ++ "-container")) l)
  | None => 0%nat
  end.





Definition is_listen (l : ListenerId) (e : Event) : bool :=
  match e with EvListen l' _ => Nat.eqb l' l | _ => false end.

Definition is_unlisten (l : ListenerId) (e : Event) : bool :=
  match e with EvUnlisten l' => Nat.eqb l' l | _ => false end.

Definition is_fetch (e : Event) : bool :=
  match e with EvFetchJson _ _ => true | _ => false end.

Definition is_dom_mutation (e : Event) : bool :=
  match e with
  | EvRemoveChildren _ | EvAppendChild _ _ => true
  | _ => false
  end.


Definition count (f : Event -> bool) (t : list Event) : nat :=
  List.length (filter f t).

Definition is_live (l : ListenerId) (s : State) : bool :=
  existsb (fun x => Nat.eqb (listener_id x) l) (listeners (page s)).

(** ** Closed forms of the adapter's DOM work

    The states and results the DOM methods end in, written out; the
    properties section proves that the methods compute them. *)

(** The error [getContainer_()] throws when the page has no dialog
    container. *)
Definition assertion_failure : Thrown :=
  user_createError "No element found with id amp-access-fewcents-dialog".

(** Calling a stored disposer, if there is one. *)
Definition dispose (o : option ListenerId) (p : Page) : Page :=
  match o with
  | Some l =>
      add_event (EvUnlisten l)
        (set_listeners
           (filter (fun x => negb (Nat.eqb (listener_id x) l)) (listeners p)) p)
  | None => p
  end.

(** The state [emptyContainer_()] leaves behind on a container that is not
    marked empty. *)
Definition emptied (s : State) : State :=
  let p := dispose (alreadyPurchasedListener_ (this s))
             (dispose (purchaseButtonListener_ (this s)) (page s)) in
  mkState
    (set_innerContainer_ None
       (set_containerEmpty_ true
          (set_alreadyPurchasedListener_ None
             (set_purchaseButtonListener_ None (this s)))))
    (match lookup_id (document p) dialog_id with
     | Some _ =>
         add_event (EvRemoveChildren dialog_id)
           (set_document (replace_children (document p) dialog_id []) p)
     | None => add_event (EvUncaught assertion_failure) p
     end).

Section ClosedForms.

Context {intl : Intl}.

(** [this.purchaseConfig_?.purchase_options?.price]. *)
Definition option_price (s : State) : JsValue :=
  opt_member (opt_member (purchaseConfig_ (this s)) "purchase_options") "price".

(** The formatter call of the price line. *)
Definition formatted_price (s : State) : Completion string :=
  NumberFormat_currency "en-EN" (opt_member (option_price s) "currency")
    (opt_member (option_price s) "amount").

(** The overlay built from node id [n] on, with the formatted price
    [text]. *)
Definition overlay_tree (n : nat) (i18n : JsObject) (text : string) : Element :=
  El n "div" (TAG ++ "-container") (JStr "")
    [ El (1 + n)%nat "div" (TAG ++ "-left-container") (JStr "")
        [ El (2 + n)%nat "div" (TAG ++ "-left-logo-container") (JStr "") [] ];
      El (3 + n)%nat "div" (TAG ++ "-right-container") (JStr "")
        [ El (4 + n)%nat "div" (TAG ++ "-logo-container") (JStr "")
            [ El (5 + n)%nat "div" (TAG ++ "-fc-logo-container") (JStr "FewÂ¢ents") [] ];
          El (6 + n)%nat "div" (TAG ++ "-description-container")
            (JStr "Get access to premium content now!") [];
          El (7 + n)%nat "div" (TAG ++ "-subDescription-container")
            (JStr "One login. Many publishers. No subscription.") [];
          El (8 + n)%nat "div" (TAG ++ "-price") (JStr (text ++ "/article")) [];
          El (11 + n)%nat "div" (TAG ++ "-buttons-container") (JStr "")
            [ El (9 + n)%nat "button" (TAG ++ "-purchase-button primary")
                (obj_get i18n "defaultButton") [];
              El (12 + n)%nat "button" (TAG ++ "-purchase-button")
                (obj_get i18n "alreadyPurchasedLink") [] ] ] ].

(** The two listeners of that overlay. *)
Definition purchase_listener (n : nat) : Listener :=
  mkListener (10 + n)%nat (9 + n)%nat "click" PurchaseClick.

Definition alreadyPurchased_listener (n : nat) (href : JsValue) : Listener :=
  mkListener (13 + n)%nat (12 + n)%nat "click" (AlreadyPurchasedClick href).

(** The state in which rendering stops when the purchase config is
    [null] or [undefined] although the formatter returned. *)
Definition half_rendered (s : State) : State :=
  let n := next_id (page s) in
  mkState
    (set_purchaseButtonListener_ (Some (10 + n)%nat)
       (set_purchaseButton_ (Some (9 + n)%nat)
          (set_innerContainer_ (Some n) (this s))))
    (mkPage (document (page s))
       (listeners (page s) ++ [purchase_listener n])
       (12 + n)%nat
       (trace (page s) ++ [EvListen (10 + n)%nat (9 + n)%nat])).

(** The state after a successful render into a dialog container that held
    [kids]. *)
Definition rendered (s : State) (kids : list Element) (text : string) : State :=
  let n := next_id (page s) in
  mkState
    (set_containerEmpty_ false
       (set_alreadyPurchasedListener_ (Some (13 + n)%nat)
          (set_purchaseButtonListener_ (Some (10 + n)%nat)
             (set_purchaseButton_ (Some (9 + n)%nat)
                (set_innerContainer_ (Some n) (this s))))))
    (mkPage
       (replace_children (document (page s)) dialog_id
          (kids ++ [overlay_tree n (i18n_ (this s)) text]))
       (listeners (page s) ++
        [purchase_listener n;
         alreadyPurchased_listener n (member (purchaseConfig_ (this s)) "identify_url")])
       (14 + n)%nat
       (trace (page s) ++
        [EvListen (10 + n)%nat (9 + n)%nat; EvListen (13 + n)%nat (12 + n)%nat;
         EvAppendChild dialog_id n])).

End ClosedForms.

(** What [getPurchaseConfig_()] settles to once the URL is built. *)
Definition settled (reply : NetReply) : Completion JsValue :=
  if AUTHORIZATION_TIMEOUT <? elapsed reply then Throw timeoutError
  else
    match outcome reply with
    | HttpResponse r =>
        if (200 <=? status r) && (status r <? 300)
        then match json_body r with
             | Some v => Normal v
             | None => Throw (ThrownError SyntaxError "Unexpected end of JSON input" None)
             end
        else Throw (ThrownError UserError "HTTP error" (Some r))
    | NetworkFailure e => Throw e
    end.

(** ** Relations between the state before and after a method *)

(** [preserves R m]: the state [m] ends in is [R]-related to the one it
    started in. *)
Definition preserves (R : State -> State -> Prop) {A} (m : M A) : Prop :=
  forall s, R s (fst (m s)).

(** The trace has only grown, by events satisfying [P]. *)
Definition extends (P : Event -> bool) (s s' : State) : Prop :=
  exists rest,
    trace (page s') = (trace (page s) ++ rest)%list /\ forallb P rest = true.

Definition not_fetch (e : Event) : bool := negb (is_fetch e).

Definition any_event (e : Event) : bool := true.

(** Events that neither register nor remove a listener. *)
Definition benign (e : Event) : bool :=
  match e with
  | EvListen _ _ | EvUnlisten _ => false
  | _ => true
  end.

(** Nothing but the trace has changed, and no listener came or went. *)
Definition quiet (s s' : State) : Prop :=
  this s' = this s /\
  document (page s') = document (page s) /\
  listeners (page s') = listeners (page s) /\
  next_id (page s') = next_id (page s) /\
  extends benign s s'.

(** ** The invariant of the adapter *)

(** The history of listeners: a listener id is registered at most once,
    ids not yet handed out have never been registered, and a registered
    listener is either still registered, and was never disposed, or it was
    disposed exactly once. *)
Record trace_ok (s : State) : Prop := mk_trace_ok {
  registered_once :
    forall l, (count (is_listen l) (trace (page s)) <= 1)%nat;
  disposed_once :
    forall l,
      (count (is_unlisten l) (trace (page s)) + (if is_live l s then 1 else 0))%nat =
      count (is_listen l) (trace (page s));
  ids_unused :
    forall l, (next_id (page s) <= l)%nat ->
      count (is_listen l) (trace (page s)) = 0%nat
}.

(** An overlay is shown: the two listener fields hold the disposers of the
    only two listeners there are, one on the purchase button and one on
    the already-purchased button, and the stored purchase config is the
    one the overlay was rendered from. *)
Definition shown (s : State) : Prop :=
  exists (l1 l2 : ListenerId) (b1 b2 : NodeId),
    purchaseButtonListener_ (this s) = Some l1 /\
    alreadyPurchasedListener_ (this s) = Some l2 /\
    purchaseButton_ (this s) = Some b1 /\
    listeners (page s) =
      [mkListener l1 b1 "click" PurchaseClick;
       mkListener l2 b2 "click"
         (AlreadyPurchasedClick (member (purchaseConfig_ (this s)) "identify_url"))] /\
    l1 <> l2 /\ b1 <> b2 /\
    is_nullish (purchaseConfig_ (this s)) = false /\
    is_nullish (opt_member (purchaseConfig_ (this s)) "purchase_options") = false.

Definition has_dialog (s : State) : bool :=
  match dialog s with Some _ => true | None => false end.

(** The invariant, for a page that started with [base] overlay-like
    children in the dialog container, a vendor built with the request URL
    [url], and a page that has ([present]) or lacks the dialog container. *)
Definition Inv (base : nat) (url : string) (present : bool) (s : State) : Prop :=
  trace_ok s /\
  purchaseConfigBaseUrl_ (this s) = url /\
  has_dialog s = present /\
  if containerEmpty_ (this s)
  then purchaseButtonListener_ (this s) = None /\
       alreadyPurchasedListener_ (this s) = None /\
       listeners (page s) = [] /\
       (overlay_count (dialog s) <= base)%nat
  else shown s /\
       (1 <= overlay_count (dialog s) <= base + 1)%nat.

(** The events of one handled click: the default action is suppressed, the
    URL is decorated, and the decorated URL goes to the login flow (or the
    failed decoration is reported). *)
Definition click_events {accessSource_ : AccessSource} (ev : nat) (url : JsValue)
    : list Event :=
  [EvPreventDefault ev; EvBuildUrl url false;
   match buildUrl url false with
   | Normal decorated => EvLoginWithUrl decorated
   | Throw e => EvUncaught e
   end].

Definition with_events (events : list Event) (s : State) : State :=
  with_page (fun p => mkPage (document p) (listeners p) (next_id p)
                        (trace p ++ events)) s.

(** The platform rule that a currency formatter cannot be built without a
    currency (ECMA-402: a TypeError). *)
Definition currency_required (intl : Intl) : Prop :=
  forall locale amount, exists e,
    NumberFormat_currency locale JUndefined amount = Throw e.

(** * The adapter as a state machine *)

(** What the host and the reader do with the adapter. *)
Inductive Call : Type :=
| CallAuthorize (reply : NetReply)
| CallClick (node : NodeId) (ev : nat)
| CallPingback.

Section Machine.

Context {accessSource_ : AccessSource} {intl : Intl}.

Definition step (s : State) (c : Call) : State :=
  match c with
  | CallAuthorize reply => exec (authorize reply) s
  | CallClick node ev => exec (click node ev) s
  | CallPingback => exec pingback s
  end.

Definition run (calls : list Call) (s : State) : State :=
  fold_left step calls s.

(** The purchase config of a denial is one the overlay can be rendered
    from: the formatter accepts its price. *)
Definition renderable (purchaseConfig : JsValue) : Prop :=
  let option_price :=
    opt_member (opt_member purchaseConfig "purchase_options") "price" in
  exists text,
    NumberFormat_currency "en-EN" (opt_member option_price "currency")
      (opt_member option_price "amount") = Normal text.


End Machine.

(** * Further observations *)

(** The value of the last property named [key] in a list of properties:
    what a source of [Object.assign] contributes for that key. *)
Fixpoint obj_last (o : JsObject) (key : string) : option JsValue :=
  match o with
  | [] => None
  | (k, v) :: rest =>
      match obj_last rest key with
      | Some w => Some w
      | None => if String.eqb k key then Some v else None
      end
  end.

(** The text assigned to the first element of class [cls] of a tree. *)
Definition text_of_class (cls : string) (e : Element) : option JsValue :=
  match find_class cls e with
  | Some x => Some (element_text x)
  | None => None
  end.

(** The fields the constructor sets once and for all. *)
Definition same_settings (s s' : State) : Prop :=
  fewcentsConfig_ (this s') = fewcentsConfig_ (this s) /\
  currentLocale_ (this s') = currentLocale_ (this s) /\
  i18n_ (this s') = i18n_ (this s) /\
  purchaseConfigBaseUrl_ (this s') = purchaseConfigBaseUrl_ (this s).

(** * Properties *)

Open Scope list_scope.

(** ** The page *)

Lemma lookup_replace_some doc id kids new :
  lookup_id doc id = Some kids ->
  lookup_id (replace_children doc id new) id = Some new.
Proof.
  induction doc as [|[k old] rest IH]; simpl; [discriminate|].
  destruct (String.eqb k id) eqn:E; simpl; rewrite E; auto.
Qed.

Lemma replace_absent doc id new :
  lookup_id doc id = None -> replace_children doc id new = doc.
Proof.
  induction doc as [|[k old] rest IH]; simpl; [reflexivity|].
  destruct (String.eqb k id); [discriminate|].
  intros H; rewrite IH; auto.
Qed.

Lemma count_app f t u : count f (t ++ u) = (count f t + count f u)%nat.
Proof. unfold count. now rewrite filter_app, length_app. Qed.

Ltac explode s :=
  destruct s as [[cfg pc pbl apl ce ic pb loc i18 burl] [doc ls n tr]].

(** ** Closed forms of the DOM methods *)

Section DomMethods.

Context {accessSource_ : AccessSource} {intl : Intl}.

Lemma getContainer__present s kids :
  dialog s = Some kids -> getContainer_ s = (s, Normal dialog_id).
Proof.
  unfold dialog, getContainer_, bind, ampdoc_getElementById.
  change (TAG ++ "-dialog")%string with dialog_id.
  intros ->. reflexivity.
Qed.

Lemma getContainer__absent s :
  dialog s = None -> getContainer_ s = (s, Throw assertion_failure).
Proof.
  unfold dialog, getContainer_, bind, ampdoc_getElementById.
  change (TAG ++ "-dialog")%string with dialog_id.
  intros ->. reflexivity.
Qed.

Lemma emptyContainer__empty s :
  containerEmpty_ (this s) = true -> emptyContainer_ s = (s, Normal tt).
Proof.
  intros H. unfold emptyContainer_, bind, gets. rewrite H. reflexivity.
Qed.

Lemma emptyContainer__shown s :
  containerEmpty_ (this s) = false -> emptyContainer_ s = (emptied s, Normal tt).
Proof.
  explode s. cbn. intros ->.
  unfold emptyContainer_, emptied, bind, gets, vsync_mutatePromise, then_,
    emptyContainer_mutator, getContainer_, ampdoc_getElementById, bind.
  change (TAG ++ "-dialog")%string with dialog_id.
  destruct pbl, apl; cbn; destruct (lookup_id doc dialog_id); reflexivity.
Qed.

Lemma emptyContainer__returns s : result emptyContainer_ s = Normal tt.
Proof.
  unfold result.
  destruct (containerEmpty_ (this s)) eqn:E.
  - rewrite emptyContainer__empty; auto.
  - rewrite emptyContainer__shown; auto.
Qed.

Lemma emptyContainer__sets_empty s :
  containerEmpty_ (this (exec emptyContainer_ s)) = true.
Proof.
  unfold exec.
  destruct (containerEmpty_ (this s)) eqn:E.
  - rewrite emptyContainer__empty; auto.
  - rewrite emptyContainer__shown; auto.
Qed.

Lemma emptyContainer__pair s :
  emptyContainer_ s = (exec emptyContainer_ s, Normal tt).
Proof.
  generalize (emptyContainer__returns s). unfold exec, result.
  destruct (emptyContainer_ s); simpl. now intros ->.
Qed.

Lemma render_no_container s :
  dialog s = None -> renderPurchaseOverlay_ s = (s, Throw assertion_failure).
Proof.
  intros H. unfold renderPurchaseOverlay_, bind at 1.
  rewrite getContainer__absent; auto.
Qed.

Lemma render_format_throws s kids e :
  dialog s = Some kids -> formatted_price s = Throw e ->
  renderPurchaseOverlay_ s =
    (with_this (set_innerContainer_ (Some (next_id (page s))))
       (with_page (set_next_id (9 + next_id (page s))) s), Throw e).
Proof.
  intros H F. unfold renderPurchaseOverlay_, bind at 1.
  rewrite (getContainer__present _ _ H).
  explode s. unfold formatted_price, option_price in F. cbn in F.
  cbn. unfold bind, lift. cbn. rewrite F. reflexivity.
Qed.

Lemma render_nullish_config s kids text :
  dialog s = Some kids -> formatted_price s = Normal text ->
  is_nullish (purchaseConfig_ (this s)) = true ->
  renderPurchaseOverlay_ s =
    (half_rendered s,
     Throw (ThrownError TypeError
              "Cannot read properties of null or undefined: identify_url" None)).
Proof.
  intros H F N. unfold renderPurchaseOverlay_, bind at 1.
  rewrite (getContainer__present _ _ H).
  explode s. unfold formatted_price, option_price in F. cbn in F, N.
  cbn. unfold bind, lift. cbn. rewrite F. cbn.
  unfold get_member. rewrite N. reflexivity.
Qed.

Lemma render_ok s kids text :
  dialog s = Some kids -> formatted_price s = Normal text ->
  is_nullish (purchaseConfig_ (this s)) = false ->
  renderPurchaseOverlay_ s = (rendered s kids text, Normal tt).
Proof.
  intros H F N. unfold renderPurchaseOverlay_, bind at 1.
  rewrite (getContainer__present _ _ H).
  explode s. unfold formatted_price, option_price in F. unfold dialog in H.
  cbn in F, N, H.
  cbn. unfold bind, lift. cbn. rewrite F. cbn.
  unfold get_member. rewrite N. cbn. rewrite H.
  cbv [rendered update with_page with_this add_event set_document set_listeners
       set_next_id set_containerEmpty_ set_alreadyPurchasedListener_
       set_purchaseButtonListener_ set_purchaseButton_ set_innerContainer_
       this page document listeners next_id trace fewcentsConfig_ purchaseConfig_
       purchaseButtonListener_ alreadyPurchasedListener_ containerEmpty_
       innerContainer_ purchaseButton_ currentLocale_ i18n_ purchaseConfigBaseUrl_].
  rewrite <- !app_assoc. reflexivity.
Qed.

(** A currency can only be read from a purchase config that has
    [purchase_options]. *)
Lemma currency_needs_option s :
  opt_member (option_price s) "currency" <> JUndefined ->
  is_nullish (purchaseConfig_ (this s)) = false /\
  is_nullish (opt_member (purchaseConfig_ (this s)) "purchase_options") = false.
Proof.
  unfold option_price. intros H.
  destruct (is_nullish (purchaseConfig_ (this s))) eqn:N.
  - exfalso. apply H. unfold opt_member. rewrite N. reflexivity.
  - split; [reflexivity|].
    destruct (is_nullish (opt_member (purchaseConfig_ (this s)) "purchase_options")) eqn:P;
      [|reflexivity].
    exfalso. apply H. unfold opt_member at 1 2. rewrite P. reflexivity.
Qed.

End DomMethods.

(** ** The request *)

Section Request.

Context {accessSource_ : AccessSource} {intl : Intl}.

Lemma getPurchaseConfig__requested s reply decorated final :
  buildUrl (JStr (purchaseConfigBaseUrl_ (this s))) false = Normal decorated ->
  getLoginUrl decorated = Normal final ->
  getPurchaseConfig_ reply s = (requested s decorated final, settled reply).
Proof.
  intros B L. explode s. cbn in B.
  unfold getPurchaseConfig_, settled, requested, bind, gets, accessSource_buildUrl,
    accessSource_getLoginUrl, timer_timeoutPromise, xhr_fetchJson, lift, log, bind.
  cbn. rewrite B, L. cbn.
  destruct reply as [took out]; cbn.
  destruct out as [r|e]; cbn.
  - destruct ((200 <=? status r) && (status r <? 300)); cbn;
      destruct (AUTHORIZATION_TIMEOUT <? took); try reflexivity.
    unfold Response_json. destruct (json_body r); reflexivity.
  - destruct (AUTHORIZATION_TIMEOUT <? took); reflexivity.
Qed.

Lemma authorize_requested s reply decorated final :
  buildUrl (JStr (purchaseConfigBaseUrl_ (this s))) false = Normal decorated ->
  getLoginUrl decorated = Normal final ->
  authorize reply s =
    match settled reply with
    | Normal response => authorize_onFulfilled response (requested s decorated final)
    | Throw err => authorize_onRejected err (requested s decorated final)
    end.
Proof.
  intros B L. unfold authorize, then_.
  rewrite (getPurchaseConfig__requested _ _ _ _ B L).
  destruct (settled reply); reflexivity.
Qed.

Lemma detached_emptyContainer s :
  detached emptyContainer_ s = (exec emptyContainer_ s, Normal tt).
Proof.
  unfold detached, then_. rewrite emptyContainer__pair. reflexivity.
Qed.

(** Emptying, then rendering, unobserved; then the result. *)
Lemma empty_render_then_return s (x : AccessResult) :
  (detached (emptyContainer_ ;; renderPurchaseOverlay_) ;; ret x) s =
  (exec (detached renderPurchaseOverlay_) (exec emptyContainer_ s), Normal x).
Proof.
  pose proof (emptyContainer__returns s) as R. unfold result in R.
  unfold bind, detached, then_, exec.
  destruct (emptyContainer_ s) as [s1 c]. cbn in R |- *. rewrite R.
  destruct (renderPurchaseOverlay_ s1) as [s2 [a|e]]; reflexivity.
Qed.

Lemma onRejected_402 s kind message r :
  status r = 402 ->
  authorize_onRejected (ThrownError kind message (Some r)) s =
    (exec (detached renderPurchaseOverlay_)
       (exec emptyContainer_
          (with_this
             (set_purchaseConfig_
                (match json_body r with Some v => v | None => JUndefined end)) s)),
     Normal (mkAccess (JBool false))).
Proof.
  intros E. unfold authorize_onRejected. rewrite E. cbn [Z.eqb Pos.eqb negb].
  unfold bind at 1, catch_, then_, Response_json.
  destruct (json_body r); cbn; unfold bind at 1, update; cbn;
    apply empty_render_then_return.
Qed.

End Request.

(** ** What a method may change *)

(** The relations used below are preorders on states, so they can be
    followed through a method body statement by statement. *)
Section Preserves.

Variable R : State -> State -> Prop.
Context {R_preorder : PreOrder R}.

Lemma preserves_ret {A} (a : A) : preserves R (ret a).
Proof. intros s. reflexivity. Qed.

Lemma preserves_throw {A} e : preserves R (@throw A e).
Proof. intros s. reflexivity. Qed.

Lemma preserves_lift {A} (c : Completion A) : preserves R (lift c).
Proof. intros s. reflexivity. Qed.

Lemma preserves_gets {A} (f : Vendor -> A) : preserves R (gets f).
Proof. intros s. reflexivity. Qed.

Lemma preserves_getElementById id : preserves R (ampdoc_getElementById id).
Proof. intros s. reflexivity. Qed.

Lemma preserves_then {A B} (m : M A) (f : A -> M B) (g : Thrown -> M B) :
  preserves R m -> (forall a, preserves R (f a)) -> (forall e, preserves R (g e)) ->
  preserves R (then_ m f g).
Proof.
  intros Hm Hf Hg s. unfold then_. specialize (Hm s).
  destruct (m s) as [s1 [a|e]]; simpl in Hm.
  - transitivity s1; [exact Hm|apply Hf].
  - transitivity s1; [exact Hm|apply Hg].
Qed.

Lemma preserves_bind {A B} (m : M A) (k : A -> M B) :
  preserves R m -> (forall a, preserves R (k a)) -> preserves R (bind m k).
Proof.
  intros Hm Hk. change (bind m k) with (then_ m k (@throw B)).
  apply preserves_then; auto using @preserves_throw.
Qed.

Lemma preserves_timeout {A} delay took (m : M A) :
  preserves R m -> preserves R (timer_timeoutPromise delay took m).
Proof.
  intros Hm s. unfold timer_timeoutPromise. specialize (Hm s).
  destruct (m s) as [s1 c]. destruct (delay <? took); exact Hm.
Qed.

End Preserves.

#[local] Instance extends_preorder (P : Event -> bool) : PreOrder (extends P).
Proof.
  split.
  - intros s. exists []. now rewrite app_nil_r.
  - intros a b c [r1 [E1 F1]] [r2 [E2 F2]]. exists (r1 ++ r2).
    now rewrite E2, E1, app_assoc, forallb_app, F1, F2.
Qed.

#[local] Instance quiet_preorder : PreOrder quiet.
Proof.
  split.
  - intros s. repeat split. reflexivity.
  - intros a b c [T1 [D1 [L1 [N1 X1]]]] [T2 [D2 [L2 [N2 X2]]]].
    repeat split; try congruence. now transitivity b.
Qed.

Section Appends.

Variable P : Event -> bool.

Lemma appends_update f : preserves (extends P) (update f).
Proof. intros s. exists []. now rewrite app_nil_r. Qed.

Lemma appends_fresh : preserves (extends P) fresh.
Proof. intros s. exists []. now rewrite app_nil_r. Qed.

Lemma appends_log e : P e = true -> preserves (extends P) (log e).
Proof. intros H s. exists [e]. simpl. now rewrite H. Qed.

Lemma appends_unlisten l :
  P (EvUnlisten l) = true -> preserves (extends P) (unlisten l).
Proof. intros H s. exists [EvUnlisten l]. simpl. now rewrite H. Qed.

Lemma appends_listen node type h :
  (forall l, P (EvListen l node) = true) -> preserves (extends P) (listen node type h).
Proof. intros H s. exists [EvListen (next_id (page s)) node]. simpl. now rewrite H. Qed.

Lemma appends_removeChildren c :
  P (EvRemoveChildren c) = true -> preserves (extends P) (removeChildren c).
Proof. intros H s. exists [EvRemoveChildren c]. simpl. now rewrite H. Qed.

Lemma appends_appendChild c e :
  P (EvAppendChild c (element_node e)) = true -> preserves (extends P) (appendChild c e).
Proof. intros H s. exists [EvAppendChild c (element_node e)]. simpl. now rewrite H. Qed.

End Appends.

Lemma quiet_log e : benign e = true -> preserves quiet (log e).
Proof.
  intros H s. repeat split. exists [e]. simpl. now rewrite H.
Qed.

Create HintDb preserves.

#[local] Hint Resolve preserves_ret preserves_throw preserves_lift preserves_gets
  preserves_getElementById appends_update appends_fresh appends_log
  appends_unlisten appends_listen appends_removeChildren appends_appendChild
  quiet_log : preserves.

(** Walks through a method body, statement by statement. *)
Ltac preserves_step :=
  first
    [ solve [auto with preserves typeclass_instances]
    | apply preserves_bind; [typeclasses eauto| |intros]
    | apply preserves_then; [typeclasses eauto| |intros|intros]
    | apply preserves_timeout
    | match goal with
      | |- preserves _ (match ?x with _ => _ end) => destruct x
      | |- preserves _ (if ?x then _ else _) => destruct x
      end ].

Section TraceOfMethods.

Context {accessSource_ : AccessSource} {intl : Intl}.

Variable P : Event -> bool.
Hypothesis uncaught_ok : forall e, P (EvUncaught e) = true.

Lemma appends_getContainer : preserves (extends P) getContainer_.
Proof. unfold getContainer_, user_assertElement. repeat preserves_step. Qed.

Lemma appends_emptyContainer :
  (forall l, P (EvUnlisten l) = true) ->
  (forall c, P (EvRemoveChildren c) = true) ->
  preserves (extends P) emptyContainer_.
Proof.
  intros U R. unfold emptyContainer_, vsync_mutatePromise, emptyContainer_mutator.
  pose proof appends_getContainer.
  repeat preserves_step.
Qed.

Lemma appends_render :
  (forall l n, P (EvListen l n) = true) ->
  (forall c n, P (EvAppendChild c n) = true) ->
  preserves (extends P) renderPurchaseOverlay_.
Proof.
  intros L C. unfold renderPurchaseOverlay_, createAlreadyPurchasedLink_, createElement_.
  pose proof appends_getContainer.
  repeat preserves_step.
Qed.

End TraceOfMethods.

(** ** The rejection and fulfilment callbacks *)

Section Callbacks.

Context {accessSource_ : AccessSource} {intl : Intl}.

Lemma render_cases s :
  renderPurchaseOverlay_ s =
    match dialog s with
    | None => (s, Throw assertion_failure)
    | Some kids =>
        match formatted_price s with
        | Throw e =>
            (with_this (set_innerContainer_ (Some (next_id (page s))))
               (with_page (set_next_id (9 + next_id (page s))) s), Throw e)
        | Normal text =>
            if is_nullish (purchaseConfig_ (this s))
            then (half_rendered s,
                  Throw (ThrownError TypeError
                    "Cannot read properties of null or undefined: identify_url" None))
            else (rendered s kids text, Normal tt)
        end
    end.
Proof.
  destruct (dialog s) as [kids|] eqn:D; [|now apply render_no_container].
  destruct (formatted_price s) as [text|e] eqn:F;
    [|now apply (render_format_throws s kids e)].
  destruct (is_nullish (purchaseConfig_ (this s))) eqn:N.
  - now apply (render_nullish_config s kids text).
  - now apply render_ok.
Qed.

Lemma emptyContainer__keeps_config s :
  purchaseConfig_ (this (exec emptyContainer_ s)) = purchaseConfig_ (this s).
Proof.
  unfold exec. destruct (containerEmpty_ (this s)) eqn:E.
  - now rewrite emptyContainer__empty.
  - now rewrite emptyContainer__shown.
Qed.




Lemma in_time took :
  took < AUTHORIZATION_TIMEOUT -> (AUTHORIZATION_TIMEOUT <? took) = false.
Proof. intros H. apply Z.ltb_ge. lia. Qed.

(** An error without a response, or with a response whose status is not
    402, is thrown again as it is, and nothing changes. *)
Lemma onRejected_rethrows s kind message response :
  match response with
  | Some r => status r <> 402
  | None => True
  end ->
  authorize_onRejected (ThrownError kind message response) s =
    (s, Throw (ThrownError kind message response)).
Proof.
  intros H. unfold authorize_onRejected. destruct response as [r|]; [|reflexivity].
  apply Z.eqb_neq in H. rewrite H. reflexivity.
Qed.

(** A rejection reason that is not an error object is never taken for a
    denial. *)
Lemma onRejected_value s v :
  exists e, authorize_onRejected (ThrownValue v) s = (s, Throw e).
Proof.
  unfold authorize_onRejected.
  destruct (to_boolean v); cbn; [|eexists; reflexivity].
  destruct (to_boolean (member v "response")); cbn; [|eexists; reflexivity].
  destruct (strict_eq_num (member (member v "response") "status") 402); cbn;
    eexists; reflexivity.
Qed.

(** A body whose [status] member is 204 is answered with the
    configuration error. *)
Lemma onFulfilled_body_status_204 s body :
  is_nullish body = false ->
  strict_eq_num (member body "status") 204 = true ->
  authorize_onFulfilled body s = (s, Throw noMatchingConfiguration).
Proof.
  intros N E. unfold authorize_onFulfilled, bind, lift, get_member.
  rewrite N, E. reflexivity.
Qed.

Lemma onFulfilled_access s body :
  is_nullish body = false ->
  strict_eq_num (member body "status") 204 = false ->
  authorize_onFulfilled body s =
    (exec emptyContainer_ s, Normal (mkAccess (member body "access"))).
Proof.
  intros N E. unfold authorize_onFulfilled, get_member. rewrite N.
  unfold bind at 1, lift. rewrite E.
  unfold bind at 1. rewrite detached_emptyContainer.
  reflexivity.
Qed.

End Callbacks.

(** ** Denial *)



(** ** Access granted *)

(** C2, as the code has it.  Whenever the request comes back in time with
    a 2xx status other than 204 and a body that parses to a value other
    than [null] whose [status] member is not 204, [authorize()] runs
    [emptyContainer_()], which leaves the container marked empty and, when
    an overlay was shown, the dialog without children and both listener
    fields cleared, and resolves with [{access: A}], [A] being the body's
    [access] member ([undefined] when the body has none). *)
Theorem authorize_success_reports_body_access :
  forall (accessSource_ : AccessSource) (intl : Intl) (s : State) (took : Z)
         (r : Response) (body : JsValue) (decorated final : string),
    buildUrl (JStr (purchaseConfigBaseUrl_ (this s))) false = Normal decorated ->
    getLoginUrl decorated = Normal final ->
    took < AUTHORIZATION_TIMEOUT ->
    200 <= status r < 300 ->
    status r <> 204 ->
    json_body r = Some body ->
    is_nullish body = false ->
    strict_eq_num (member body "status") 204 = false ->
    let final_state := exec emptyContainer_ (requested s decorated final) in
    authorize (mkReply took (HttpResponse r)) s =
      (final_state, Normal (mkAccess (member body "access"))) /\
    containerEmpty_ (this final_state) = true /\
    (containerEmpty_ (this s) = false ->
     purchaseButtonListener_ (this final_state) = None /\
     alreadyPurchasedListener_ (this final_state) = None /\
     forall kids, dialog s = Some kids -> dialog final_state = Some []).
Proof.
  intros A I s took r body decorated final B L T [Lo Hi] N204 J N E final_state.
  split; [|split].
  - rewrite (authorize_requested _ _ _ _ B L).
    unfold settled. cbn [elapsed outcome]. rewrite (in_time _ T).
    apply Z.leb_le in Lo. apply Z.ltb_lt in Hi. rewrite Lo, Hi, J. cbn [andb].
    now apply onFulfilled_access.
  - apply emptyContainer__sets_empty.
  - intros C. unfold final_state, exec.
    rewrite emptyContainer__shown by exact C. cbn [fst].
    split; [reflexivity|]. split; [reflexivity|].
    intros kids D. explode s. unfold dialog in *. cbn in *.
    destruct pbl, apl; cbn; rewrite D; cbn;
      now rewrite (lookup_replace_some _ _ _ _ D).
Qed.

Lemma authorize_success_reports_body_access_witness :
  let s := new_vendor sampleConfig samplePage 0 in
  let url := (purchaseConfigBaseUrl_ (this s) ++ "#rid=reader-1")%string in
  let body := JObj [("access", JBool true)] in
  let final_state := exec (@emptyContainer_) (requested s url url) in
  @authorize sampleAccessSource sampleIntl
    (mkReply 120 (HttpResponse (mkResponse 200 (Some body)))) s =
    (final_state, Normal (mkAccess (member body "access"))) /\
  containerEmpty_ (this final_state) = true /\
  (containerEmpty_ (this s) = false ->
   purchaseButtonListener_ (this final_state) = None /\
   alreadyPurchasedListener_ (this final_state) = None /\
   forall kids, dialog s = Some kids -> dialog final_state = Some []).
Proof.
  apply (authorize_success_reports_body_access sampleAccessSource sampleIntl
           (new_vendor sampleConfig samplePage 0) 120
           (mkResponse 200 (Some (JObj [("access", JBool true)])))
           (JObj [("access", JBool true)])
           (purchaseConfigBaseUrl_ (constructor sampleConfig) ++ "#rid=reader-1")%string
           (purchaseConfigBaseUrl_ (constructor sampleConfig) ++ "#rid=reader-1")%string).
  - reflexivity.
  - reflexivity.
  - reflexivity.
  - cbn. lia.
  - discriminate.
  - reflexivity.
  - reflexivity.
  - reflexivity.
Defined.

(** A denial followed by a grant: the overlay is taken down again. *)
Example grant_after_denial_clears_overlay :
  let shown := exec (@authorize sampleAccessSource sampleIntl
                       (denial (Some samplePurchaseConfig)))
                 (new_vendor sampleConfig samplePage 0) in
  let granted :=
    @authorize sampleAccessSource sampleIntl
      (mkReply 90 (HttpResponse (mkResponse 200 (Some (JObj [("access", JBool true)])))))
      shown in
  containerEmpty_ (this shown) = false /\
  snd granted = Normal (mkAccess (JBool true)) /\
  dialog (fst granted) = Some [] /\
  listeners (page (fst granted)) = [] /\
  containerEmpty_ (this (fst granted)) = true.
Proof. vm_compute. repeat split. Qed.

(** C2 as stated fails: a 200 response whose body is [{"access": false}]
    makes [authorize()] resolve with [{access: false}], not
    [{access: true}]. *)
Lemma authorize_success_not_always_true :
  let r := mkResponse 200 (Some (JObj [("access", JBool false)])) in
  let s := new_vendor sampleConfig samplePage 0 in
  (200 <= status r < 300 /\ status r <> 204) /\
  result (@authorize sampleAccessSource sampleIntl (mkReply 120 (HttpResponse r))) s =
    Normal (mkAccess (JBool false)) /\
  result (@authorize sampleAccessSource sampleIntl (mkReply 120 (HttpResponse r))) s <>
    Normal (mkAccess (JBool true)).
Proof.
  cbn. repeat split; try lia; discriminate.
Qed.

(** ** No content, and other failures *)

(** C3, at the failing input.  A 204 response has no body, so
    [response.json()] fails before the fulfilment callback is reached; the
    rejection callback finds no [response] on the parse error and throws it
    again.  [authorize()] therefore rejects with the parse error, which is
    not the configuration error, and the adapter's fields stay as they
    were. *)
Theorem authorize_no_content_rejects_with_parse_error :
  forall (accessSource_ : AccessSource) (intl : Intl) (s : State) (took : Z)
         (r : Response) (decorated final : string),
    buildUrl (JStr (purchaseConfigBaseUrl_ (this s))) false = Normal decorated ->
    getLoginUrl decorated = Normal final ->
    took < AUTHORIZATION_TIMEOUT ->
    status r = 204 ->
    json_body r = None ->
    authorize (mkReply took (HttpResponse r)) s =
      (requested s decorated final,
       Throw (ThrownError SyntaxError "Unexpected end of JSON input" None)) /\
    ThrownError SyntaxError "Unexpected end of JSON input" None <>
      noMatchingConfiguration /\
    this (requested s decorated final) = this s.
Proof.
  intros A I s took r decorated final B L T E J. split; [|split].
  - rewrite (authorize_requested _ _ _ _ B L).
    unfold settled. cbn [elapsed outcome]. rewrite (in_time _ T), E, J.
    reflexivity.
  - discriminate.
  - reflexivity.
Qed.

Lemma authorize_no_content_rejects_with_parse_error_witness :
  let s := new_vendor sampleConfig samplePage 0 in
  let url := (purchaseConfigBaseUrl_ (this s) ++ "#rid=reader-1")%string in
  @authorize sampleAccessSource sampleIntl
    (mkReply 120 (HttpResponse (mkResponse 204 None))) s =
    (requested s url url,
     Throw (ThrownError SyntaxError "Unexpected end of JSON input" None)) /\
  ThrownError SyntaxError "Unexpected end of JSON input" None <>
    noMatchingConfiguration /\
  this (requested s url url) = this s.
Proof.
  apply (authorize_no_content_rejects_with_parse_error sampleAccessSource sampleIntl
           (new_vendor sampleConfig samplePage 0) 120 (mkResponse 204 None)
           (purchaseConfigBaseUrl_ (constructor sampleConfig) ++ "#rid=reader-1")%string
           (purchaseConfigBaseUrl_ (constructor sampleConfig) ++ "#rid=reader-1")%string);
    try reflexivity; cbn; lia.
Defined.

(** The other half of C3 holds: a response with any status outside 2xx
    other than 402, and a transport error that carries no response, reject
    [authorize()] with the very error the request failed with, and the
    adapter's fields stay as they were. *)
Lemma authorize_rethrows_other_failures
    (accessSource_ : AccessSource) (intl : Intl) (s : State) (took : Z)
    (decorated final : string) :
  buildUrl (JStr (purchaseConfigBaseUrl_ (this s))) false = Normal decorated ->
  getLoginUrl decorated = Normal final ->
  took < AUTHORIZATION_TIMEOUT ->
  (forall r, ~ 200 <= status r < 300 -> status r <> 402 ->
     authorize (mkReply took (HttpResponse r)) s =
       (requested s decorated final,
        Throw (ThrownError UserError "HTTP error" (Some r)))) /\
  (forall kind message,
     authorize (mkReply took (NetworkFailure (ThrownError kind message None))) s =
       (requested s decorated final, Throw (ThrownError kind message None))).
Proof.
  intros B L T. split.
  - intros r R N. rewrite (authorize_requested _ _ _ _ B L).
    unfold settled. cbn [elapsed outcome]. rewrite (in_time _ T).
    destruct ((200 <=? status r) && (status r <? 300)) eqn:X.
    + exfalso. apply R. apply andb_true_iff in X. destruct X as [X1 X2].
      apply Z.leb_le in X1. apply Z.ltb_lt in X2. lia.
    + now apply onRejected_rethrows.
  - intros kind message. rewrite (authorize_requested _ _ _ _ B L).
    unfold settled. cbn [elapsed outcome]. rewrite (in_time _ T).
    now apply onRejected_rethrows.
Qed.

(** ** The request and its timeout *)

Section RequestTrace.

Context {accessSource_ : AccessSource} {intl : Intl}.

Lemma appends_onFulfilled response : preserves (extends not_fetch) (authorize_onFulfilled response).
Proof.
  unfold authorize_onFulfilled.
  pose proof (appends_emptyContainer not_fetch (fun _ => eq_refl) (fun _ => eq_refl)
                (fun _ => eq_refl)).
  unfold detached; repeat preserves_step.
Qed.

Lemma appends_onRejected err : preserves (extends not_fetch) (authorize_onRejected err).
Proof.
  unfold authorize_onRejected, catch_, Response_json.
  pose proof (appends_emptyContainer not_fetch (fun _ => eq_refl) (fun _ => eq_refl)
                (fun _ => eq_refl)).
  pose proof (appends_render not_fetch (fun _ _ => eq_refl) (fun _ _ => eq_refl)).
  unfold detached; repeat preserves_step.
Qed.

Lemma count_none f t : forallb (fun e => negb (f e)) t = true -> count f t = 0%nat.
Proof.
  unfold count. induction t as [|e t IH]; simpl; [reflexivity|].
  destruct (f e); simpl; [discriminate|]. exact IH.
Qed.

End RequestTrace.

(** C7.  The timeout is 3000 ms.  Once the URL is built, an [authorize()]
    call makes exactly one request, a JSON fetch of the final URL with
    credentials included, and nothing it does afterwards is a request.  If
    the request takes longer than 3000 ms the call rejects with the timeout
    error, and neither the adapter's fields nor the page have changed: the
    only thing that happened is the request. *)
Theorem authorize_single_request_with_timeout :
  forall (accessSource_ : AccessSource) (intl : Intl) (s : State)
         (reply : NetReply) (decorated final : string),
    buildUrl (JStr (purchaseConfigBaseUrl_ (this s))) false = Normal decorated ->
    getLoginUrl decorated = Normal final ->
    AUTHORIZATION_TIMEOUT = 3000 /\
    (exists rest,
       trace (page (exec (authorize reply) s)) =
         trace (page s) ++
         [EvBuildUrl (JStr (purchaseConfigBaseUrl_ (this s))) false;
          EvGetLoginUrl decorated;
          EvFetchJson final "include"] ++ rest /\
       count is_fetch rest = 0%nat) /\
    count is_fetch (trace (page (exec (authorize reply) s))) =
      S (count is_fetch (trace (page s))) /\
    (3000 < elapsed reply ->
     authorize reply s = (requested s decorated final, Throw timeoutError) /\
     this (requested s decorated final) = this s /\
     document (page (requested s decorated final)) = document (page s) /\
     listeners (page (requested s decorated final)) = listeners (page s) /\
     count is_dom_mutation (trace (page (requested s decorated final))) =
       count is_dom_mutation (trace (page s))).
Proof.
  intros A I s reply decorated final B L.
  assert (R : exists rest,
             trace (page (exec (authorize reply) s)) =
               trace (page s) ++
               [EvBuildUrl (JStr (purchaseConfigBaseUrl_ (this s))) false;
                EvGetLoginUrl decorated;
                EvFetchJson final "include"] ++ rest /\
             count is_fetch rest = 0%nat).
  { unfold exec. rewrite (authorize_requested _ _ _ _ B L).
    destruct (settled reply) as [response|err].
    - destruct (appends_onFulfilled response (requested s decorated final))
        as [rest [E F]].
      exists rest. rewrite E. split; [|now apply count_none].
      unfold requested. cbn. now rewrite <- !app_assoc.
    - destruct (appends_onRejected err (requested s decorated final))
        as [rest [E F]].
      exists rest. rewrite E. split; [|now apply count_none].
      unfold requested. cbn. now rewrite <- !app_assoc. }
  split; [reflexivity|]. split; [exact R|]. split.
  - destruct R as [rest [E F]]. rewrite E, !count_app, F. cbn. lia.
  - intros T. split; [|split; [|split; [|split]]]; try reflexivity.
    + rewrite (authorize_requested _ _ _ _ B L). unfold settled.
      assert (X : (AUTHORIZATION_TIMEOUT <? elapsed reply) = true)
        by (apply Z.ltb_lt; exact T).
      rewrite X. reflexivity.
    + unfold requested. cbn -[count]. rewrite !count_app. cbn. lia.
Qed.

Lemma authorize_single_request_with_timeout_witness :
  let s := new_vendor sampleConfig samplePage 0 in
  let url := (purchaseConfigBaseUrl_ (this s) ++ "#rid=reader-1")%string in
  let reply := mkReply 3001 (HttpResponse (mkResponse 200 (Some (JObj [("access", JBool true)])))) in
  AUTHORIZATION_TIMEOUT = 3000 /\
  (exists rest,
     trace (page (exec (@authorize sampleAccessSource sampleIntl reply) s)) =
       trace (page s) ++
       [EvBuildUrl (JStr (purchaseConfigBaseUrl_ (this s))) false;
        EvGetLoginUrl url; EvFetchJson url "include"] ++ rest /\
     count is_fetch rest = 0%nat) /\
  count is_fetch (trace (page (exec (@authorize sampleAccessSource sampleIntl reply) s))) =
    S (count is_fetch (trace (page s))) /\
  (3000 < elapsed reply ->
   @authorize sampleAccessSource sampleIntl reply s = (requested s url url, Throw timeoutError) /\
   this (requested s url url) = this s /\
   document (page (requested s url url)) = document (page s) /\
   listeners (page (requested s url url)) = listeners (page s) /\
   count is_dom_mutation (trace (page (requested s url url))) =
     count is_dom_mutation (trace (page s))).
Proof.
  apply (authorize_single_request_with_timeout sampleAccessSource sampleIntl
           (new_vendor sampleConfig samplePage 0)
           (mkReply 3001 (HttpResponse (mkResponse 200 (Some (JObj [("access", JBool true)])))))
           (purchaseConfigBaseUrl_ (constructor sampleConfig) ++ "#rid=reader-1")%string
           (purchaseConfigBaseUrl_ (constructor sampleConfig) ++ "#rid=reader-1")%string);
    reflexivity.
Defined.

(** ** The authorization URL *)

Section FirstEvent.

Context {accessSource_ : AccessSource} {intl : Intl}.

Lemma authorize_starts_with_buildUrl reply s :
  exists rest,
    trace (page (exec (authorize reply) s)) =
      trace (page s) ++
      EvBuildUrl (JStr (purchaseConfigBaseUrl_ (this s))) false :: rest.
Proof.
  assert (K : preserves (extends any_event)
            (then_
               (url <- lift (buildUrl (JStr (purchaseConfigBaseUrl_ (this s))) false) ;;
                url <- accessSource_getLoginUrl url ;;
                res <- timer_timeoutPromise AUTHORIZATION_TIMEOUT (elapsed reply)
                         (xhr_fetchJson url "include" (outcome reply)) ;;
                Response_json res)
               authorize_onFulfilled authorize_onRejected)).
  { pose proof (appends_emptyContainer any_event (fun _ => eq_refl) (fun _ => eq_refl)
                  (fun _ => eq_refl)).
    pose proof (appends_render any_event (fun _ _ => eq_refl) (fun _ _ => eq_refl)).
    unfold accessSource_getLoginUrl, xhr_fetchJson,
      authorize_onFulfilled, authorize_onRejected, catch_, Response_json.
    unfold detached; repeat preserves_step. }
  destruct (K (with_page
                 (add_event (EvBuildUrl (JStr (purchaseConfigBaseUrl_ (this s))) false)) s))
    as [rest [E _]].
  exists rest. unfold exec.
  replace (authorize reply s) with
    (then_
       (url <- lift (buildUrl (JStr (purchaseConfigBaseUrl_ (this s))) false) ;;
        url <- accessSource_getLoginUrl url ;;
        res <- timer_timeoutPromise AUTHORIZATION_TIMEOUT (elapsed reply)
                 (xhr_fetchJson url "include" (outcome reply)) ;;
        Response_json res)
       authorize_onFulfilled authorize_onRejected
       (with_page
          (add_event (EvBuildUrl (JStr (purchaseConfigBaseUrl_ (this s))) false)) s))
    by reflexivity.
  rewrite E. cbn. now rewrite <- app_assoc.
Qed.

End FirstEvent.

(** C9, as the code has it.  The URL handed to the URL-building step is the
    fixed base http://localhost:9000, whatever [configUrl] is configured,
    followed by the fixed path template and, exactly when [articleId] is
    configured and not empty, by [&article_id=] and the URI-encoded id. *)
Theorem authorization_url_has_fixed_base :
  forall (accessSource_ : AccessSource) (intl : Intl)
         (config : fewcentsConfig_0_2_Def) (doc : list (string * list Element))
         (first_id : nat) (reply : NetReply),
    let url :=
      ("http://localhost:9000" ++
       "/api/v1/amp/?article_url=CANONICAL_URL&amp_reader_id=READER_ID&return_url=RETURN_URL" ++
       match articleId config with
       | Some id =>
           if String.eqb id "" then "" else "&article_id=" ++ encodeURIComponent id
       | None => ""
       end)%string in
    purchaseConfigBaseUrl_ (constructor config) = url /\
    (forall other,
       purchaseConfigBaseUrl_
         (constructor (mkConfig (articleTitleSelector config) other (articleId config)
                         (scrollToTopAfterAuth config) (locale config)
                         (localeMessages config) (region config) (sandbox config))) =
       url) /\
    exists rest,
      trace (page (exec (authorize reply) (new_vendor config doc first_id))) =
        EvBuildUrl (JStr url) false :: rest.
Proof.
  intros A I config doc first_id reply url.
  assert (E : purchaseConfigBaseUrl_ (constructor config) = url).
  { unfold url, constructor, getConfigUrl_, truthy_string. cbn.
    destruct (articleId config) as [id|]; [|reflexivity].
    destruct (String.eqb id ""); reflexivity. }
  split; [exact E|]. split.
  - intros other. rewrite <- E. reflexivity.
  - destruct (authorize_starts_with_buildUrl reply (new_vendor config doc first_id))
      as [rest R].
    exists rest. rewrite R. cbn [new_vendor this page trace app]. now rewrite E.
Qed.

(** C9 as stated fails: with [configUrl] configured, the specified URL
    starts with the configured base, the adapter's with the default. *)
Lemma authorization_url_ignores_configUrl :
  let config :=
    mkConfig "h1" (Some "https://api.vendor.example") None None None None None None in
  spec_authorization_url config =
    "https://api.vendor.example/api/v1/amp/?article_url=CANONICAL_URL&amp_reader_id=READER_ID&return_url=RETURN_URL" /\
  purchaseConfigBaseUrl_ (constructor config) =
    "http://localhost:9000/api/v1/amp/?article_url=CANONICAL_URL&amp_reader_id=READER_ID&return_url=RETURN_URL" /\
  purchaseConfigBaseUrl_ (constructor config) <> spec_authorization_url config.
Proof.
  cbn. repeat split. discriminate.
Qed.

(** ** The dialog container *)

(** C10.  Without an element with id amp-access-fewcents-dialog in the
    page, [renderPurchaseOverlay_()] and [renderContainer()] throw the user
    assertion error before doing anything, and so does the mutator of
    [emptyContainer_()] once it has marked the container empty; an
    [emptyContainer_()] call on a shown overlay then leaves the page
    untouched and the error is reported. *)
Theorem container_element_is_required :
  forall (accessSource_ : AccessSource) (intl : Intl) (s : State),
    dialog s = None ->
    dialog_id = "amp-access-fewcents-dialog" /\
    assertion_failure = user_createError ("No element found with id " ++ dialog_id) /\
    renderPurchaseOverlay_ s = (s, Throw assertion_failure) /\
    renderContainer s = (s, Throw assertion_failure) /\
    emptyContainer_mutator s =
      (with_this (fun v => set_innerContainer_ None (set_containerEmpty_ true v)) s,
       Throw assertion_failure) /\
    (containerEmpty_ (this s) = false ->
     document (page (exec emptyContainer_ s)) = document (page s) /\
     count is_dom_mutation (trace (page (exec emptyContainer_ s))) =
       count is_dom_mutation (trace (page s)) /\
     exists before,
       trace (page (exec emptyContainer_ s)) = before ++ [EvUncaught assertion_failure]).
Proof.
  intros A I s D. split; [reflexivity|]. split; [reflexivity|].
  split; [now apply render_no_container|]. split; [|split].
  - unfold renderContainer, bind. now rewrite getContainer__absent.
  - explode s. unfold dialog in D. cbn in D.
    unfold emptyContainer_mutator, getContainer_, bind, update,
      ampdoc_getElementById. cbn.
    change "amp-access-fewcents-dialog" with dialog_id. rewrite D. reflexivity.
  - intros C. unfold exec. rewrite emptyContainer__shown by exact C. cbn [fst].
    explode s. unfold dialog in D. cbn in D, C |- *.
    destruct pbl, apl; cbn; rewrite D; cbn; (split; [reflexivity|]);
      (split; [rewrite !filter_app, !length_app; cbn; lia|]); eexists; reflexivity.
Qed.

Lemma container_element_is_required_witness :
  let s := new_vendor sampleConfig [] 0 in
  dialog_id = "amp-access-fewcents-dialog" /\
  assertion_failure = user_createError ("No element found with id " ++ dialog_id) /\
  @renderPurchaseOverlay_ sampleIntl s = (s, Throw assertion_failure) /\
  renderContainer s = (s, Throw assertion_failure) /\
  emptyContainer_mutator s =
    (with_this (fun v => set_innerContainer_ None (set_containerEmpty_ true v)) s,
     Throw assertion_failure) /\
  (containerEmpty_ (this s) = false ->
   document (page (exec emptyContainer_ s)) = document (page s) /\
   count is_dom_mutation (trace (page (exec emptyContainer_ s))) =
     count is_dom_mutation (trace (page s)) /\
   exists before,
     trace (page (exec emptyContainer_ s)) = before ++ [EvUncaught assertion_failure]).
Proof.
  apply (container_element_is_required sampleAccessSource sampleIntl
           (new_vendor sampleConfig [] 0)).
  reflexivity.
Defined.

(** ** Rendering the price *)

(** C4, at the failing inputs.  With a [null] or [undefined] purchase
    config, as left behind by a 402 response whose body does not parse,
    [renderPurchaseOverlay_()] throws: the formatter refuses the missing
    currency, and if it did not, reading [identify_url] from the missing
    config would.  The same holds whenever the currency alone is missing,
    by the platform rule that a currency formatter needs a currency.  No
    overlay is attached, and the container stays marked as it was. *)
Theorem render_throws_without_currency :
  forall (accessSource_ : AccessSource) (intl : Intl) (s : State),
    is_nullish (purchaseConfig_ (this s)) = true \/
    (currency_required intl /\
     opt_member
       (opt_member (opt_member (purchaseConfig_ (this s)) "purchase_options") "price")
       "currency" = JUndefined) ->
    exists e,
      result renderPurchaseOverlay_ s = Throw e /\
      dialog (exec renderPurchaseOverlay_ s) = dialog s /\
      containerEmpty_ (this (exec renderPurchaseOverlay_ s)) = containerEmpty_ (this s).
Proof.
  intros A I s H. unfold result, exec. rewrite render_cases.
  destruct (dialog s) as [kids|] eqn:D; [|eexists; cbn; eauto].
  destruct (formatted_price s) as [text|e] eqn:F.
  - destruct H as [N|[R U]].
    + rewrite N. eexists. cbn. eauto.
    + exfalso. unfold formatted_price, option_price in F. rewrite U in F.
      destruct (R "en-EN"
                  (opt_member
                     (opt_member (opt_member (purchaseConfig_ (this s)) "purchase_options")
                        "price") "amount")) as [e X].
      rewrite X in F. discriminate.
  - eexists. cbn. split; [reflexivity|]. split; [|reflexivity].
    explode s. exact D.
Qed.

Lemma render_throws_without_currency_witness :
  let s := exec (@authorize sampleAccessSource sampleIntl (denial None))
             (new_vendor sampleConfig samplePage 0) in
  exists e,
    result (@renderPurchaseOverlay_ sampleIntl) s = Throw e /\
    dialog (exec (@renderPurchaseOverlay_ sampleIntl) s) = dialog s /\
    containerEmpty_ (this (exec (@renderPurchaseOverlay_ sampleIntl) s)) =
      containerEmpty_ (this s).
Proof.
  apply (render_throws_without_currency sampleAccessSource sampleIntl
           (exec (@authorize sampleAccessSource sampleIntl (denial None))
              (new_vendor sampleConfig samplePage 0))).
  left. reflexivity.
Defined.

(** The sample formatter obeys the platform rule. *)
Lemma sampleIntl_requires_currency : currency_required sampleIntl.
Proof. intros locale amount. eexists. reflexivity. Qed.

(** A 402 response whose body does not parse: [authorize()] resolves, the
    render fails out of the caller's sight and no overlay is shown. *)
Example malformed_denial_is_not_rendered :
  let s := exec (@authorize sampleAccessSource sampleIntl (denial None))
             (new_vendor sampleConfig samplePage 0) in
  purchaseConfig_ (this s) = JUndefined /\
  dialog s = Some [] /\
  containerEmpty_ (this s) = true /\
  last (trace (page s)) (EvPreventDefault 0) =
    EvUncaught (ThrownError TypeError "Currency code is required with currency style." None).
Proof. repeat split. Qed.

(** C5, as the code has it.  When the dialog container exists, a purchase
    config is stored and the formatter for the fixed locale en-EN accepts
    the currency and amount read from [purchase_options.price], the overlay
    is rendered and its price line is that formatted text followed by
    [/article]; the adapter's configured locale plays no part. *)
Theorem price_text_uses_fixed_locale :
  forall (accessSource_ : AccessSource) (intl : Intl) (s : State)
         (kids : list Element) (text : string),
    dialog s = Some kids ->
    is_nullish (purchaseConfig_ (this s)) = false ->
    (let price :=
       opt_member (opt_member (purchaseConfig_ (this s)) "purchase_options") "price" in
     NumberFormat_currency "en-EN" (opt_member price "currency")
       (opt_member price "amount") = Normal text) ->
    exists overlay,
      result renderPurchaseOverlay_ s = Normal tt /\
      dialog (exec renderPurchaseOverlay_ s) = Some (kids ++ [overlay]) /\
      price_text overlay = Some (JStr (text ++ "/article")).
Proof.
  intros A I s kids text D N F.
  exists (overlay_tree (next_id (page s)) (i18n_ (this s)) text).
  unfold result, exec. rewrite (render_ok s kids text D F N). cbn [fst snd].
  split; [reflexivity|]. split; [|reflexivity].
  unfold dialog in *. unfold rendered. cbn.
  now rewrite (lookup_replace_some _ _ _ _ D).
Qed.

Lemma price_text_uses_fixed_locale_witness :
  let s := with_this (set_purchaseConfig_ samplePurchaseConfig)
             (new_vendor sampleConfig samplePage 0) in
  exists overlay,
    result (@renderPurchaseOverlay_ sampleIntl) s = Normal tt /\
    dialog (exec (@renderPurchaseOverlay_ sampleIntl) s) = Some ([] ++ [overlay]) /\
    price_text overlay = Some (JStr ("EUR 1.50" ++ "/article")).
Proof.
  apply (price_text_uses_fixed_locale sampleAccessSource sampleIntl
           (with_this (set_purchaseConfig_ samplePurchaseConfig)
              (new_vendor sampleConfig samplePage 0)) [] "EUR 1.50");
    reflexivity.
Defined.

(** C5 as stated fails: for an adapter configured with the locale de, the
    specified price line is formatted the German way, the rendered one is
    not. *)
Lemma price_text_ignores_configured_locale :
  let config := mkConfig "h1" None None None (Some "de") None None None in
  let s := exec (@authorize sampleAccessSource sampleIntl
                   (denial (Some samplePurchaseConfig)))
             (new_vendor config samplePage 0) in
  currentLocale_ (this s) = "de" /\
  @spec_price_text sampleIntl (this s) = Normal "1,50 EUR/article" /\
  exists overlay,
    dialog s = Some [overlay] /\
    price_text overlay = Some (JStr "EUR 1.50/article").
Proof.
  cbn. repeat split. eexists. split; reflexivity.
Qed.

(** ** The invariant *)

Lemma benign_counts rest l :
  forallb benign rest = true ->
  count (is_listen l) rest = 0%nat /\ count (is_unlisten l) rest = 0%nat.
Proof.
  unfold count. induction rest as [|e rest IH]; simpl; [auto|].
  intros H. apply andb_true_iff in H. destruct H as [B H].
  destruct (IH H) as [I1 I2]. destruct e; simpl in *; try discriminate; auto.
Qed.

Lemma is_live_listeners l s s' :
  listeners (page s') = listeners (page s) -> is_live l s' = is_live l s.
Proof. unfold is_live. now intros ->. Qed.

(** The history stays sound while no listener comes or goes and ids are
    only used up. *)
Lemma trace_ok_grow s s' :
  trace_ok s ->
  listeners (page s') = listeners (page s) ->
  (next_id (page s) <= next_id (page s'))%nat ->
  extends benign s s' ->
  trace_ok s'.
Proof.
  intros [R D U] L N [rest [E B]].
  split; intros l; rewrite E, ?count_app; destruct (benign_counts rest l B) as [C1 C2];
    rewrite ?C1, ?C2, ?Nat.add_0_r.
  - apply R.
  - rewrite (is_live_listeners l s s' L). rewrite <- (D l). lia.
  - intros H. apply U. lia.
Qed.

(** Disposing the two listeners of a shown overlay. *)
Lemma trace_ok_disposed s s' x y rest :
  trace_ok s ->
  listeners (page s) = [x; y] ->
  listener_id x <> listener_id y ->
  listeners (page s') = [] ->
  next_id (page s') = next_id (page s) ->
  trace (page s') =
    trace (page s) ++ [EvUnlisten (listener_id x); EvUnlisten (listener_id y)] ++ rest ->
  forallb benign rest = true ->
  trace_ok s'.
Proof.
  intros [R D U] L Ne L' N E B.
  split; intros l; rewrite E, !count_app;
    destruct (benign_counts rest l B) as [C1 C2]; rewrite ?C1, ?C2.
  - cbn. specialize (R l). lia.
  - specialize (D l). unfold is_live in D |- *. rewrite L in D. rewrite L'.
    cbn in D |- *.
    destruct (Nat.eqb_spec (listener_id x) l); destruct (Nat.eqb_spec (listener_id y) l);
      cbn in D |- *; lia.
  - rewrite N. intros H. cbn. specialize (U l H). lia.
Qed.

(** Registering the two listeners of a new overlay, with fresh ids. *)
Lemma trace_ok_registered s s' x y b1 b2 rest :
  trace_ok s ->
  listeners (page s) = [] ->
  listeners (page s') = [x; y] ->
  listener_id x <> listener_id y ->
  (next_id (page s) <= listener_id x < next_id (page s'))%nat ->
  (next_id (page s) <= listener_id y < next_id (page s'))%nat ->
  trace (page s') =
    trace (page s) ++
    [EvListen (listener_id x) b1; EvListen (listener_id y) b2] ++ rest ->
  forallb benign rest = true ->
  trace_ok s'.
Proof.
  intros [R D U] L L' Ne Bx By E B.
  split; intros l; rewrite E, !count_app;
    destruct (benign_counts rest l B) as [C1 C2]; rewrite ?C1, ?C2; cbn.
  - specialize (R l).
    destruct (Nat.eqb_spec (listener_id x) l); destruct (Nat.eqb_spec (listener_id y) l);
      cbn; try lia; rewrite (U l) by lia; lia.
  - specialize (D l). unfold is_live in D |- *. rewrite L in D. rewrite L'.
    cbn in D |- *.
    destruct (Nat.eqb_spec (listener_id x) l); destruct (Nat.eqb_spec (listener_id y) l);
      cbn in D |- *; lia.
  - intros H.
    destruct (Nat.eqb_spec (listener_id x) l); destruct (Nat.eqb_spec (listener_id y) l);
      cbn; try lia.
    rewrite (U l) by lia. lia.
Qed.

Lemma has_dialog_document s s' :
  document (page s') = document (page s) -> has_dialog s' = has_dialog s.
Proof. unfold has_dialog, dialog. now intros ->. Qed.

Lemma Inv_quiet base url present s s' :
  Inv base url present s -> quiet s s' -> Inv base url present s'.
Proof.
  intros [T [B [P I]]] [Th [Do [Li [Ne X]]]].
  split; [|split; [|split]].
  - apply (trace_ok_grow s s'); auto. lia.
  - now rewrite Th.
  - now rewrite (has_dialog_document _ _ Do).
  - unfold shown, dialog in *. rewrite Th, Li, Do. exact I.
Qed.

Section InvariantSteps.

Context {accessSource_ : AccessSource} {intl : Intl}.

(** Emptying the container, possibly after a new purchase config has been
    stored, re-establishes the invariant in its empty form. *)
Lemma Inv_emptied base url present s c :
  Inv base url present s ->
  let s' := exec emptyContainer_ (with_this (set_purchaseConfig_ c) s) in
  Inv base url present s' /\
  containerEmpty_ (this s') = true /\
  purchaseConfig_ (this s') = c.
Proof.
  intros [T [B [P I]]] s'. unfold s', exec.
  destruct (containerEmpty_ (this s)) eqn:C.
  - rewrite emptyContainer__empty by exact C.
    cbn [fst]. split; [|split]; [|exact C|reflexivity].
    split; [|split; [|split]].
    + apply (trace_ok_grow s); auto.
      exists []. split; [cbn; now rewrite app_nil_r|reflexivity].
    + exact B.
    + exact P.
    + cbn. rewrite C. exact I.
  - rewrite emptyContainer__shown by exact C.
    cbn [fst]. split; [|split]; [|reflexivity|reflexivity].
    destruct I as [[l1 [l2 [b1 [b2 [F1 [F2 [F3 [F4 [N1 [N2 [F5 F6]]]]]]]]]]] O].
    explode s. unfold has_dialog, dialog in *. cbn in C, B, P, F1, F2, F3, F4, O.
    subst pbl apl ls ce.
    assert (E1 : (l1 =? l1)%nat = true) by apply Nat.eqb_refl.
    assert (E2 : (l2 =? l1)%nat = false) by (apply Nat.eqb_neq; congruence).
    assert (E3 : (l2 =? l2)%nat = true) by apply Nat.eqb_refl.
    unfold emptied. cbn. rewrite E1, E2. cbn. rewrite E3. cbn.
    split; [|split; [|split]].
    + eapply (trace_ok_disposed _ _ _ _
                [match lookup_id doc dialog_id with
                 | Some _ => EvRemoveChildren dialog_id
                 | None => EvUncaught assertion_failure
                 end] T); cbn.
      * reflexivity.
      * exact N1.
      * destruct (lookup_id doc dialog_id); reflexivity.
      * destruct (lookup_id doc dialog_id); reflexivity.
      * destruct (lookup_id doc dialog_id); cbn; now rewrite <- !app_assoc.
      * destruct (lookup_id doc dialog_id); reflexivity.
    + exact B.
    + unfold has_dialog, dialog. destruct (lookup_id doc dialog_id) eqn:D; cbn.
      * now rewrite (lookup_replace_some _ _ _ _ D).
      * now rewrite D.
    + destruct (lookup_id doc dialog_id) eqn:D; cbn; unfold dialog; cbn;
        rewrite ?(lookup_replace_some _ _ _ _ D), ?D; cbn; repeat split; lia.
Qed.


Lemma overlay_count_app kids n i18n text :
  overlay_count (Some (kids ++ [overlay_tree n i18n text])) =
  S (overlay_count (Some kids)).
Proof.
  unfold overlay_count. rewrite filter_app, length_app. cbn. lia.
Qed.

(** Rendering on an emptied container keeps the invariant: either it
    fails before anything was registered, or it shows the overlay. *)
Lemma Inv_rendered base url present s :
  currency_required intl ->
  Inv base url present s ->
  containerEmpty_ (this s) = true ->
  let s' := exec (detached renderPurchaseOverlay_) s in
  Inv base url present s' /\
  (has_dialog s = true -> renderable (purchaseConfig_ (this s)) ->
   containerEmpty_ (this s') = false).
Proof.
  intros Req [T [B [P I]]] C s'. unfold s', exec, detached, then_.
  rewrite C in I. destruct I as [F1 [F2 [L O]]].
  rewrite render_cases.
  destruct (dialog s) as [kids|] eqn:D.
  2:{ split.
      - apply (Inv_quiet base url present s).
        + split; [exact T|]. split; [exact B|]. split; [exact P|].
          rewrite C, D. auto.
        + repeat split. exists [EvUncaught assertion_failure]. auto.
      - unfold has_dialog. rewrite D. discriminate. }
  destruct (formatted_price s) as [text|e] eqn:F.
  2:{ split.
      - split; [|split; [|split]].
        + apply (trace_ok_grow s); auto.
          * cbn. lia.
          * exists [EvUncaught e]. auto.
        + exact B.
        + exact P.
        + cbn. rewrite C. unfold dialog in *. cbn. rewrite D. auto.
      - intros _ [text R]. unfold formatted_price, option_price in F.
        rewrite R in F. discriminate. }
  assert (Cur : opt_member (option_price s) "currency" <> JUndefined).
  { intros U. unfold formatted_price in F. rewrite U in F.
    destruct (Req "en-EN" (opt_member (option_price s) "amount")) as [e X].
    rewrite X in F. discriminate. }
  destruct (currency_needs_option s Cur) as [N1 N2].
  rewrite N1. cbn [fst].
  split; [|reflexivity].
  split; [|split; [|split]].
  - apply (trace_ok_registered s (rendered s kids text)
             (purchase_listener (next_id (page s)))
             (alreadyPurchased_listener (next_id (page s))
                (member (purchaseConfig_ (this s)) "identify_url"))
             (9 + next_id (page s))%nat (12 + next_id (page s))%nat
             [EvAppendChild dialog_id (next_id (page s))] T L).
    + unfold rendered. cbn [page listeners]. now rewrite L.
    + cbn. lia.
    + cbn. lia.
    + cbn. lia.
    + reflexivity.
    + reflexivity.
  - exact B.
  - unfold has_dialog, dialog, rendered in *. cbn.
    rewrite (lookup_replace_some _ _ _ _ D). rewrite D in P. exact P.
  - unfold rendered. cbn [this containerEmpty_ set_containerEmpty_].
    split.
    + exists (10 + next_id (page s))%nat, (13 + next_id (page s))%nat,
        (9 + next_id (page s))%nat, (12 + next_id (page s))%nat.
      cbn. rewrite L.
      repeat split; try assumption; lia.
    + unfold dialog in *. cbn -[overlay_count overlay_tree].
      rewrite (lookup_replace_some _ _ _ _ D).
      rewrite overlay_count_app. lia.
Qed.


(** A denial: the new config is stored, the container emptied, the overlay
    rendered. *)
Lemma Inv_denied base url present s c :
  currency_required intl ->
  Inv base url present s ->
  let s' := exec (detached renderPurchaseOverlay_)
              (exec emptyContainer_ (with_this (set_purchaseConfig_ c) s)) in
  Inv base url present s' /\
  (present = true -> renderable c -> containerEmpty_ (this s') = false).
Proof.
  intros Req I s'.
  destruct (Inv_emptied base url present s c I) as [I1 [E1 P1]].
  destruct (Inv_rendered base url present _ Req I1 E1) as [I2 S2].
  split; [exact I2|].
  intros Pr Rn. apply S2.
  - destruct I1 as [_ [_ [H _]]]. now rewrite H.
  - now rewrite P1.
Qed.

Lemma set_same_config s :
  with_this (set_purchaseConfig_ (purchaseConfig_ (this s))) s = s.
Proof. destruct s as [[] ?]. reflexivity. Qed.

Lemma onFulfilled_state s response :
  exec (authorize_onFulfilled response) s = s \/
  exec (authorize_onFulfilled response) s = exec emptyContainer_ s.
Proof.
  unfold exec.
  destruct (is_nullish response) eqn:N.
  - left. unfold authorize_onFulfilled, get_member. rewrite N. reflexivity.
  - destruct (strict_eq_num (member response "status") 204) eqn:E.
    + left. now rewrite onFulfilled_body_status_204.
    + right. now rewrite onFulfilled_access.
Qed.

Lemma Inv_onFulfilled base url present s response :
  Inv base url present s ->
  Inv base url present (exec (authorize_onFulfilled response) s).
Proof.
  intros I. destruct (onFulfilled_state s response) as [->| ->]; [exact I|].
  rewrite <- (set_same_config s) at 1.
  apply (Inv_emptied base url present s (purchaseConfig_ (this s)) I).
Qed.

Lemma onRejected_state s err :
  exec (authorize_onRejected err) s = s \/
  exists c,
    exec (authorize_onRejected err) s =
      exec (detached renderPurchaseOverlay_)
        (exec emptyContainer_ (with_this (set_purchaseConfig_ c) s)).
Proof.
  destruct err as [kind message [r|]|v].
  - destruct (Z.eq_dec (status r) 402) as [E|E].
    + right. exists (match json_body r with Some v => v | None => JUndefined end).
      unfold exec at 1. now rewrite onRejected_402.
    + left. unfold exec. now rewrite onRejected_rethrows.
  - left. unfold exec. now rewrite onRejected_rethrows.
  - left. unfold exec. destruct (onRejected_value s v) as [e ->]. reflexivity.
Qed.

Lemma Inv_onRejected base url present s err :
  currency_required intl ->
  Inv base url present s ->
  Inv base url present (exec (authorize_onRejected err) s).
Proof.
  intros Req I. destruct (onRejected_state s err) as [->|[c ->]]; [exact I|].
  now apply Inv_denied.
Qed.

Lemma quiet_getPurchaseConfig reply : preserves quiet (getPurchaseConfig_ reply).
Proof.
  unfold getPurchaseConfig_, accessSource_buildUrl, accessSource_getLoginUrl,
    xhr_fetchJson, Response_json.
  repeat preserves_step.
Qed.

Lemma quiet_handler h ev : preserves quiet (detached (handler_body h ev)).
Proof.
  unfold detached, handler_body, handlePurchase_, accessSource_buildUrl,
    accessSource_loginWithUrl.
  repeat preserves_step.
Qed.

Lemma quiet_call_listeners ls node ev : preserves quiet (call_listeners ls node ev).
Proof.
  induction ls as [|l ls IH]; simpl.
  - apply preserves_ret. typeclasses eauto.
  - pose proof (quiet_handler (handler l) ev). repeat preserves_step.
Qed.

(** Every call keeps the invariant. *)
Lemma Inv_step base url present s c :
  currency_required intl ->
  Inv base url present s -> Inv base url present (step s c).
Proof.
  intros Req I. destruct c as [reply|node ev|]; cbn [step].
  - unfold exec, authorize, then_.
    pose proof (quiet_getPurchaseConfig reply s) as Q.
    destruct (getPurchaseConfig_ reply s) as [s1 [response|err]]; cbn [fst] in Q.
    + apply Inv_onFulfilled. now apply (Inv_quiet _ _ _ s).
    + apply Inv_onRejected; [exact Req|]. now apply (Inv_quiet _ _ _ s).
  - apply (Inv_quiet _ _ _ s); [exact I|].
    unfold exec, click. apply quiet_call_listeners.
  - exact I.
Qed.

Lemma Inv_run base url present calls s :
  currency_required intl ->
  Inv base url present s -> Inv base url present (run calls s).
Proof.
  intros Req. revert s. induction calls as [|c calls IH]; intros s I; cbn.
  - exact I.
  - apply IH. now apply Inv_step.
Qed.

Lemma Inv_new_vendor config doc first_id :
  Inv (overlay_count (lookup_id doc dialog_id))
    (purchaseConfigBaseUrl_ (constructor config))
    (match lookup_id doc dialog_id with Some _ => true | None => false end)
    (new_vendor config doc first_id).
Proof.
  split; [|split; [|split]]; try reflexivity.
  - split; intros l; reflexivity || (cbn; lia).
  - cbn. repeat split. unfold dialog. cbn. lia.
Qed.

End InvariantSteps.

(** ** One overlay, one listener per button *)

Section Overlay.

Context {accessSource_ : AccessSource} {intl : Intl}.








End Overlay.



(** ** Clicks *)

Section Clicks.

Context {accessSource_ : AccessSource} {intl : Intl}.

Lemma detached_handlePurchase ev url surplus s :
  detached (handlePurchase_ ev url surplus) s =
    (with_events (click_events ev url) s, Normal tt).
Proof.
  explode s.
  unfold detached, then_, handlePurchase_, bind, accessSource_buildUrl,
    accessSource_loginWithUrl, log, lift, bind, click_events, with_events.
  cbn. destruct (buildUrl url false); cbn;
    cbv [ret log with_page with_this add_event this page document listeners next_id trace];
    rewrite <- !app_assoc; reflexivity.
Qed.

Lemma handler_purchase ev s :
  is_nullish (purchaseConfig_ (this s)) = false ->
  is_nullish (opt_member (purchaseConfig_ (this s)) "purchase_options") = false ->
  handler_body PurchaseClick ev s =
    handlePurchase_ ev
      (member (member (purchaseConfig_ (this s)) "purchase_options") "purchase_url")
      [] s.
Proof.
  intros N1 N2. unfold opt_member in N2. rewrite N1 in N2.
  unfold handler_body, bind at 1, gets. unfold bind at 1, lift, get_member.
  rewrite N1. unfold bind at 1. rewrite N2. reflexivity.
Qed.

End Clicks.

(** C8.  Given that the platform's formatter needs a currency: in every
    state the adapter can reach in which an overlay is shown, the purchase
    button and the already-purchased button are two elements, each with
    its one listener.  A click on the purchase button calls
    [handlePurchase_] with the [purchase_url] of the stored config's
    [purchase_options]; a click on the other calls it with the stored
    config's [identify_url] and the further argument ['alreadyPurchased'],
    which [handlePurchase_] never looks at.  Either way the event's
    default action is suppressed, the URL is decorated by the URL-building
    step alone and, once that has resolved, the decorated URL is handed to
    the login flow exactly once (a failed decoration is reported and
    nothing is handed over). *)
Theorem click_hands_over_to_login :
  forall (accessSource_ : AccessSource) (intl : Intl),
    currency_required intl ->
    forall config doc first_id calls ev,
      let s := run calls (new_vendor config doc first_id) in
      containerEmpty_ (this s) = false ->
      let purchase_url :=
        member (member (purchaseConfig_ (this s)) "purchase_options") "purchase_url" in
      let identify_url := member (purchaseConfig_ (this s)) "identify_url" in
      exists (purchaseButton alreadyPurchased : NodeId) (l1 l2 : ListenerId),
        purchaseButton_ (this s) = Some purchaseButton /\
        purchaseButton <> alreadyPurchased /\
        listeners (page s) =
          [mkListener l1 purchaseButton "click" PurchaseClick;
           mkListener l2 alreadyPurchased "click" (AlreadyPurchasedClick identify_url)] /\
        handler_body PurchaseClick ev s = handlePurchase_ ev purchase_url [] s /\
        handler_body (AlreadyPurchasedClick identify_url) ev s =
          handlePurchase_ ev identify_url [JStr "alreadyPurchased"] s /\
        handlePurchase_ ev identify_url [JStr "alreadyPurchased"] s =
          handlePurchase_ ev identify_url [] s /\
        click purchaseButton ev s =
          (with_events (click_events ev purchase_url) s, Normal tt) /\
        click alreadyPurchased ev s =
          (with_events (click_events ev identify_url) s, Normal tt) /\
        (forall url,
           click_events ev url =
             [EvPreventDefault ev; EvBuildUrl url false;
              match buildUrl url false with
              | Normal decorated => EvLoginWithUrl decorated
              | Throw e => EvUncaught e
              end]).
Proof.
  intros A I Req config doc first_id calls ev s C purchase_url identify_url.
  pose proof (Inv_run _ _ _ calls _ Req (Inv_new_vendor config doc first_id)) as V.
  fold s in V. destruct V as [_ [_ [_ V]]]. rewrite C in V.
  destruct V as [[l1 [l2 [b1 [b2 [F1 [F2 [F3 [L [N1 [N2 [N3 N4]]]]]]]]]]] _].
  exists b1, b2, l1, l2.
  split; [exact F3|]. split; [exact N2|]. split; [exact L|].
  split; [now apply handler_purchase|]. split; [reflexivity|]. split; [reflexivity|].
  split; [|split; [|reflexivity]].
  - unfold click. rewrite L. cbn [call_listeners target handler].
    rewrite Nat.eqb_refl.
    replace (b2 =? b1)%nat with false by (symmetry; apply Nat.eqb_neq; congruence).
    unfold bind at 1.
    replace (detached (handler_body PurchaseClick ev) s)
      with (with_events (click_events ev purchase_url) s, Normal tt).
    + reflexivity.
    + symmetry. unfold detached, then_. rewrite handler_purchase by assumption.
      apply (detached_handlePurchase ev purchase_url [] s).
  - unfold click. rewrite L. cbn [call_listeners target handler].
    rewrite Nat.eqb_refl.
    replace (b1 =? b2)%nat with false by (symmetry; apply Nat.eqb_neq; congruence).
    unfold bind at 1. unfold ret at 1. unfold bind at 1.
    fold identify_url.
    change (handler_body (AlreadyPurchasedClick identify_url) ev)
      with (handlePurchase_ ev identify_url [JStr "alreadyPurchased"]).
    rewrite detached_handlePurchase. reflexivity.
Qed.

Lemma click_hands_over_to_login_witness :
  currency_required sampleIntl /\
  let s := run (accessSource_ := sampleAccessSource) (intl := sampleIntl)
             [CallAuthorize (denial (Some samplePurchaseConfig))]
             (new_vendor sampleConfig samplePage 0) in
  containerEmpty_ (this s) = false /\
  exists (purchaseButton alreadyPurchased : NodeId) (l1 l2 : ListenerId),
    purchaseButton_ (this s) = Some purchaseButton /\
    purchaseButton <> alreadyPurchased /\
    listeners (page s) =
      [mkListener l1 purchaseButton "click" PurchaseClick;
       mkListener l2 alreadyPurchased "click"
         (AlreadyPurchasedClick (JStr "https://vendor.example/identify"))] /\
    @click sampleAccessSource purchaseButton 7 s =
      (with_events
         [EvPreventDefault 7; EvBuildUrl (JStr "https://vendor.example/buy") false;
          EvLoginWithUrl "https://vendor.example/buy#rid=reader-1"] s, Normal tt) /\
    @click sampleAccessSource alreadyPurchased 7 s =
      (with_events
         [EvPreventDefault 7; EvBuildUrl (JStr "https://vendor.example/identify") false;
          EvLoginWithUrl "https://vendor.example/identify#rid=reader-1"] s, Normal tt).
Proof.
  split; [exact sampleIntl_requires_currency|]. split; [reflexivity|].
  destruct (click_hands_over_to_login sampleAccessSource sampleIntl
              sampleIntl_requires_currency sampleConfig samplePage 0%nat
              [CallAuthorize (denial (Some samplePurchaseConfig))] 7%nat eq_refl)
    as [b1 [b2 [l1 [l2 [F [N [L [_ [_ [_ [C1 [C2 _]]]]]]]]]]]].
  exists b1, b2, l1, l2. repeat split; assumption.
Defined.

(** * Further properties *)

(** ** Messages *)

Lemma obj_get_set o k v k' :
  obj_get (obj_set o k v) k' = if String.eqb k k' then v else obj_get o k'.
Proof.
  induction o as [|[k0 w] rest IH]; simpl.
  - reflexivity.
  - destruct (String.eqb_spec k0 k) as [->|N]; simpl.
    + destruct (String.eqb k k'); reflexivity.
    + rewrite IH. destruct (String.eqb_spec k0 k') as [->|N']; [|reflexivity].
      destruct (String.eqb_spec k k') as [->|_]; [congruence|reflexivity].
Qed.

Lemma obj_get_assign source : forall target key,
  obj_get (Object_assign target source) key =
    match obj_last source key with
    | Some v => v
    | None => obj_get target key
    end.
Proof.
  unfold Object_assign.
  induction source as [|[k v] rest IH]; intros target key; simpl.
  - reflexivity.
  - rewrite IH. destruct (obj_last rest key); [reflexivity|].
    rewrite obj_get_set. destruct (String.eqb k key); reflexivity.
Qed.

(** X1.  The message for a key is the one [localeMessages] configures for
    it (the last one, should the key be listed twice), and the built-in
    message when [localeMessages] is not configured or does not list the
    key; a key that is neither configured nor built in has no message. *)
Theorem messages_default_unless_configured :
  forall (config : fewcentsConfig_0_2_Def) (key : string),
    obj_get (i18n_ (constructor config)) key =
      match localeMessages config with
      | Some messages =>
          match obj_last messages key with
          | Some message => message
          | None => obj_get DEFAULT_MESSAGES key
          end
      | None => obj_get DEFAULT_MESSAGES key
      end.
Proof.
  intros config key. unfold constructor. cbn [i18n_].
  rewrite obj_get_assign.
  destruct (localeMessages config) as [messages|]; reflexivity.
Qed.

(** X2.  A successful render labels the purchase button with the
    [defaultButton] message and the other button with the
    [alreadyPurchasedLink] message of the adapter, and carries the three
    fixed texts. *)
Theorem render_labels_buttons_from_messages :
  forall (accessSource_ : AccessSource) (intl : Intl) (s : State)
         (kids : list Element) (text : string),
    dialog s = Some kids ->
    is_nullish (purchaseConfig_ (this s)) = false ->
    (let price :=
       opt_member (opt_member (purchaseConfig_ (this s)) "purchase_options") "price" in
     NumberFormat_currency "en-EN" (opt_member price "currency")
       (opt_member price "amount") = Normal text) ->
    exists overlay,
      dialog (exec renderPurchaseOverlay_ s) = Some (kids ++ [overlay]) /\
      text_of_class "amp-access-fewcents-purchase-button primary" overlay =
        Some (obj_get (i18n_ (this s)) "defaultButton") /\
      text_of_class "amp-access-fewcents-purchase-button" overlay =
        Some (obj_get (i18n_ (this s)) "alreadyPurchasedLink") /\
      text_of_class "amp-access-fewcents-description-container" overlay =
        Some (JStr "Get access to premium content now!") /\
      text_of_class "amp-access-fewcents-subDescription-container" overlay =
        Some (JStr "One login. Many publishers. No subscription.").
Proof.
  intros A I s kids text D N F.
  exists (overlay_tree (next_id (page s)) (i18n_ (this s)) text).
  unfold exec. rewrite (render_ok s kids text D F N). cbn [fst].
  split; [|repeat split].
  unfold dialog in *. unfold rendered. cbn.
  now rewrite (lookup_replace_some _ _ _ _ D).
Qed.

Lemma render_labels_buttons_from_messages_witness :
  let s := with_this (set_purchaseConfig_ samplePurchaseConfig)
             (new_vendor sampleConfig samplePage 0) in
  exists overlay,
    dialog (exec (@renderPurchaseOverlay_ sampleIntl) s) = Some ([] ++ [overlay]) /\
    text_of_class "amp-access-fewcents-purchase-button primary" overlay =
      Some (obj_get (i18n_ (this s)) "defaultButton") /\
    text_of_class "amp-access-fewcents-purchase-button" overlay =
      Some (obj_get (i18n_ (this s)) "alreadyPurchasedLink") /\
    text_of_class "amp-access-fewcents-description-container" overlay =
      Some (JStr "Get access to premium content now!") /\
    text_of_class "amp-access-fewcents-subDescription-container" overlay =
      Some (JStr "One login. Many publishers. No subscription.").
Proof.
  apply (render_labels_buttons_from_messages sampleAccessSource sampleIntl
           (with_this (set_purchaseConfig_ samplePurchaseConfig)
              (new_vendor sampleConfig samplePage 0)) [] "EUR 1.50");
    reflexivity.
Defined.

(** ** The article id in the URL *)

Lemma percent_encode_safe c :
  forallb (fun x => uri_unreserved x || Ascii.eqb x "%")
    (list_ascii_of_string (percent_encode c)) = true.
Proof.
  destruct c as [b0 b1 b2 b3 b4 b5 b6 b7].
  destruct b0, b1, b2, b3, b4, b5, b6, b7; reflexivity.
Qed.

Lemma chars_app a b :
  list_ascii_of_string (a ++ b) = list_ascii_of_string a ++ list_ascii_of_string b.
Proof. induction a as [|c a IH]; simpl; [reflexivity|now rewrite IH]. Qed.

Lemma encodeURIComponent_safe s :
  forallb (fun x => uri_unreserved x || Ascii.eqb x "%")
    (list_ascii_of_string (encodeURIComponent s)) = true.
Proof.
  induction s as [|c s IH]; [reflexivity|].
  cbn [encodeURIComponent]. rewrite chars_app, forallb_app, IH, andb_true_r.
  destruct (uri_unreserved c) eqn:U.
  - cbn. now rewrite U.
  - apply percent_encode_safe.
Qed.

(** X3.  [encodeURIComponent] only ever produces unreserved characters and
    percent signs, so the article id appended to the authorization URL
    holds no [&], [=], [#], [?], [/] or space: it cannot end the
    [article_id] parameter or start another one. *)
Theorem article_id_cannot_break_query :
  forall (id : string) (c : ascii),
    In c (list_ascii_of_string (encodeURIComponent id)) ->
    (uri_unreserved c = true \/ c = "%"%char) /\
    c <> "&"%char /\ c <> "="%char /\ c <> "#"%char /\ c <> "?"%char /\
    c <> "/"%char /\ c <> " "%char.
Proof.
  intros id c H.
  pose proof (encodeURIComponent_safe id) as S.
  rewrite forallb_forall in S. specialize (S c H).
  apply orb_true_iff in S.
  assert (D : uri_unreserved c = true \/ c = "%"%char).
  { destruct S as [U|E]; [now left|right; now apply Ascii.eqb_eq]. }
  split; [exact D|].
  repeat split; intros ->; destruct D as [U|E]; discriminate.
Qed.

Lemma article_id_cannot_break_query_witness :
  (uri_unreserved "5" = true \/ "5"%char = "%"%char) /\
  "5"%char <> "&"%char /\ "5"%char <> "="%char /\ "5"%char <> "#"%char /\
  "5"%char <> "?"%char /\ "5"%char <> "/"%char /\ "5"%char <> " "%char.
Proof.
  apply (article_id_cannot_break_query "a&b=5" "5"%char).
  vm_compute. tauto.
Defined.

Lemma hex_digit_code n :
  (n < 16)%nat ->
  nat_of_ascii (hex_digit n) = if (n <? 10)%nat then (48 + n)%nat else (55 + n)%nat.
Proof.
  intros H. unfold hex_digit.
  destruct (n <? 10)%nat; apply nat_ascii_embedding; lia.
Qed.

Lemma hex_digit_inj a b :
  (a < 16)%nat -> (b < 16)%nat -> hex_digit a = hex_digit b -> a = b.
Proof.
  intros Ha Hb E.
  assert (N : nat_of_ascii (hex_digit a) = nat_of_ascii (hex_digit b)) by now rewrite E.
  rewrite !hex_digit_code in N by assumption.
  destruct (Nat.ltb_spec a 10), (Nat.ltb_spec b 10); lia.
Qed.

Lemma percent_encode_inj c1 c2 : percent_encode c1 = percent_encode c2 -> c1 = c2.
Proof.
  unfold percent_encode. intros E. injection E as Eh El.
  change (hex_digit (nat_of_ascii c1 / 16) = hex_digit (nat_of_ascii c2 / 16)) in Eh.
  change (hex_digit (nat_of_ascii c1 mod 16) = hex_digit (nat_of_ascii c2 mod 16)) in El.
  pose proof (nat_ascii_bounded c1) as B1. pose proof (nat_ascii_bounded c2) as B2.
  assert (Q : (nat_of_ascii c1 / 16 = nat_of_ascii c2 / 16)%nat).
  { apply hex_digit_inj; [| |exact Eh];
      apply Nat.Div0.div_lt_upper_bound; lia. }
  assert (R : (nat_of_ascii c1 mod 16 = nat_of_ascii c2 mod 16)%nat).
  { apply hex_digit_inj; [| |exact El]; apply Nat.mod_upper_bound; lia. }
  assert (N : nat_of_ascii c1 = nat_of_ascii c2).
  { rewrite (Nat.div_mod_eq (nat_of_ascii c1) 16), (Nat.div_mod_eq (nat_of_ascii c2) 16).
    now rewrite Q, R. }
  rewrite <- (ascii_nat_embedding c1), <- (ascii_nat_embedding c2). now rewrite N.
Qed.

Lemma percent_encode_app c r :
  (percent_encode c ++ r)%string =
  String "%" (String (hex_digit (nat_of_ascii c / 16))
                (String (hex_digit (nat_of_ascii c mod 16)) r)).
Proof. reflexivity. Qed.

Lemma char_app c r : (String c EmptyString ++ r)%string = String c r.
Proof. reflexivity. Qed.

Lemma encodeURIComponent_cons c s :
  encodeURIComponent (String c s) =
    ((if uri_unreserved c then String c EmptyString else percent_encode c) ++
     encodeURIComponent s)%string.
Proof. reflexivity. Qed.

Lemma encodeURIComponent_inj s1 : forall s2,
  encodeURIComponent s1 = encodeURIComponent s2 -> s1 = s2.
Proof.
  induction s1 as [|c1 s1 IH]; intros [|c2 s2] E.
  - reflexivity.
  - rewrite encodeURIComponent_cons in E.
    destruct (uri_unreserved c2); rewrite ?char_app, ?percent_encode_app in E;
      discriminate.
  - rewrite encodeURIComponent_cons in E.
    destruct (uri_unreserved c1); rewrite ?char_app, ?percent_encode_app in E;
      discriminate.
  - rewrite !encodeURIComponent_cons in E.
    destruct (uri_unreserved c1) eqn:U1, (uri_unreserved c2) eqn:U2;
      rewrite ?char_app, ?percent_encode_app in E.
    + injection E as -> E. now rewrite (IH s2 E).
    + injection E as -> E. discriminate.
    + injection E as <- E. discriminate.
    + injection E as Eh El E.
      change (hex_digit (nat_of_ascii c1 / 16) = hex_digit (nat_of_ascii c2 / 16)) in Eh.
      change (hex_digit (nat_of_ascii c1 mod 16) = hex_digit (nat_of_ascii c2 mod 16))
        in El.
      assert (P : percent_encode c1 = percent_encode c2)
        by (unfold percent_encode; now rewrite Eh, El).
      rewrite (percent_encode_inj _ _ P). now rewrite (IH s2 E).
Qed.

Lemma string_app_inv_head p : forall a b : string, (p ++ a = p ++ b)%string -> a = b.
Proof.
  induction p as [|c p IH]; intros a b E; [exact E|].
  cbn in E. injection E as E. now apply IH.
Qed.

(** X4.  [encodeURIComponent] loses nothing: two adapters configured with
    article ids get the same authorization URL only if the ids are the
    same. *)
Theorem configured_article_ids_give_distinct_urls :
  forall (config1 config2 : fewcentsConfig_0_2_Def) (id1 id2 : string),
    articleId config1 = Some id1 ->
    articleId config2 = Some id2 ->
    purchaseConfigBaseUrl_ (constructor config1) =
      purchaseConfigBaseUrl_ (constructor config2) ->
    id1 = id2.
Proof.
  intros config1 config2 id1 id2 A1 A2. unfold constructor, getConfigUrl_, truthy_string.
  cbn [purchaseConfigBaseUrl_]. rewrite A1, A2.
  intros E. apply string_app_inv_head in E.
  destruct (String.eqb_spec id1 "") as [->|N1], (String.eqb_spec id2 "") as [->|N2];
    cbn in E; try discriminate; [reflexivity|].
  injection E as E. now apply encodeURIComponent_inj.
Qed.

Lemma configured_article_ids_give_distinct_urls_witness :
  "a b" = "a b".
Proof.
  apply (configured_article_ids_give_distinct_urls
           (mkConfig "h1" None (Some "a b") None None None None None)
           (mkConfig "h2" None (Some "a b") None (Some "de") None None None)
           "a b" "a b");
    reflexivity.
Defined.

(** ** Requests that do not come back with a usable answer *)

(** X5.  When the URL cannot be built (the URL-building step or the
    login-URL step fails with an error that carries no response),
    [authorize()] rejects with that error without making a request, and
    the adapter's fields, the page and the listeners are as before. *)
Theorem authorize_without_url_makes_no_request :
  forall (accessSource_ : AccessSource) (intl : Intl) (s : State)
         (reply : NetReply) (kind : ErrorKind) (message : string),
    (buildUrl (JStr (purchaseConfigBaseUrl_ (this s))) false =
       Throw (ThrownError kind message None) \/
     exists decorated,
       buildUrl (JStr (purchaseConfigBaseUrl_ (this s))) false = Normal decorated /\
       getLoginUrl decorated = Throw (ThrownError kind message None)) ->
    let s' := exec (authorize reply) s in
    result (authorize reply) s = Throw (ThrownError kind message None) /\
    count is_fetch (trace (page s')) = count is_fetch (trace (page s)) /\
    this s' = this s /\
    document (page s') = document (page s) /\
    listeners (page s') = listeners (page s).
Proof.
  intros A I s reply kind message H s'. unfold s', result, exec.
  explode s. cbn [this purchaseConfigBaseUrl_] in H.
  unfold authorize, then_, getPurchaseConfig_, bind, gets, accessSource_buildUrl,
    accessSource_getLoginUrl, log, lift, bind.
  cbn [this purchaseConfigBaseUrl_ fst snd].
  destruct H as [B|[decorated [B L]]]; rewrite B; cbn.
  - rewrite !filter_app, !length_app. cbn. repeat split. lia.
  - rewrite L. cbn. rewrite !filter_app, !length_app. cbn. repeat split. lia.
Qed.

Lemma authorize_without_url_makes_no_request_witness :
  let offline : AccessSource :=
    {| buildUrl := fun _ _ => Throw (ThrownError OtherError "no reader id" None);
       getLoginUrl := fun url => Normal url |} in
  let s := new_vendor sampleConfig samplePage 0 in
  let s' := exec (@authorize offline sampleIntl (denial None)) s in
  result (@authorize offline sampleIntl (denial None)) s =
    Throw (ThrownError OtherError "no reader id" None) /\
  count is_fetch (trace (page s')) = count is_fetch (trace (page s)) /\
  this s' = this s /\
  document (page s') = document (page s) /\
  listeners (page s') = listeners (page s).
Proof.
  apply (authorize_without_url_makes_no_request
           {| buildUrl := fun _ _ => Throw (ThrownError OtherError "no reader id" None);
              getLoginUrl := fun url => Normal url |}
           sampleIntl (new_vendor sampleConfig samplePage 0) (denial None)
           OtherError "no reader id").
  left. reflexivity.
Defined.

(** X6.  A 2xx response whose body cannot be used rejects [authorize()]
    and changes nothing but the trace of the request: a body that is not
    valid JSON rejects with the parse error, a body that is JSON [null]
    with the TypeError of reading [status] from it. *)
Theorem authorize_success_with_unusable_body :
  forall (accessSource_ : AccessSource) (intl : Intl) (s : State) (took : Z)
         (r : Response) (decorated final : string),
    buildUrl (JStr (purchaseConfigBaseUrl_ (this s))) false = Normal decorated ->
    getLoginUrl decorated = Normal final ->
    took < AUTHORIZATION_TIMEOUT ->
    200 <= status r < 300 ->
    json_body r = None \/ json_body r = Some JNull ->
    authorize (mkReply took (HttpResponse r)) s =
      (requested s decorated final,
       Throw (match json_body r with
              | None => ThrownError SyntaxError "Unexpected end of JSON input" None
              | Some _ =>
                  ThrownError TypeError
                    "Cannot read properties of null or undefined: status" None
              end)) /\
    this (requested s decorated final) = this s /\
    document (page (requested s decorated final)) = document (page s) /\
    listeners (page (requested s decorated final)) = listeners (page s).
Proof.
  intros A I s took r decorated final B L T [Lo Hi] J.
  split; [|repeat split].
  rewrite (authorize_requested _ _ _ _ B L).
  unfold settled. cbn [elapsed outcome]. rewrite (in_time _ T).
  apply Z.leb_le in Lo. apply Z.ltb_lt in Hi. rewrite Lo, Hi. cbn [andb].
  destruct J as [-> | ->]; reflexivity.
Qed.

Lemma authorize_success_with_unusable_body_witness :
  let s := new_vendor sampleConfig samplePage 0 in
  let url := (purchaseConfigBaseUrl_ (this s) ++ "#rid=reader-1")%string in
  @authorize sampleAccessSource sampleIntl
    (mkReply 120 (HttpResponse (mkResponse 200 (Some JNull)))) s =
    (requested s url url,
     Throw (match json_body (mkResponse 200 (Some JNull)) with
            | None => ThrownError SyntaxError "Unexpected end of JSON input" None
            | Some _ =>
                ThrownError TypeError
                  "Cannot read properties of null or undefined: status" None
            end)) /\
  this (requested s url url) = this s /\
  document (page (requested s url url)) = document (page s) /\
  listeners (page (requested s url url)) = listeners (page s).
Proof.
  apply (authorize_success_with_unusable_body sampleAccessSource sampleIntl
           (new_vendor sampleConfig samplePage 0) 120 (mkResponse 200 (Some JNull))
           (purchaseConfigBaseUrl_ (constructor sampleConfig) ++ "#rid=reader-1")%string
           (purchaseConfigBaseUrl_ (constructor sampleConfig) ++ "#rid=reader-1")%string).
  - reflexivity.
  - reflexivity.
  - reflexivity.
  - cbn. lia.
  - right. reflexivity.
Defined.

(** X7.  The configuration error is raised for a 2xx response whose
    parsed body has a [status] member equal to 204, whatever the HTTP
    status within 2xx and whatever the body's [access] member; the
    container is not emptied and nothing but the trace of the request
    changes. *)
Theorem authorize_body_status_204_is_configuration_error :
  forall (accessSource_ : AccessSource) (intl : Intl) (s : State) (took : Z)
         (r : Response) (body : JsValue) (decorated final : string),
    buildUrl (JStr (purchaseConfigBaseUrl_ (this s))) false = Normal decorated ->
    getLoginUrl decorated = Normal final ->
    took < AUTHORIZATION_TIMEOUT ->
    200 <= status r < 300 ->
    json_body r = Some body ->
    is_nullish body = false ->
    strict_eq_num (member body "status") 204 = true ->
    authorize (mkReply took (HttpResponse r)) s =
      (requested s decorated final, Throw noMatchingConfiguration) /\
    this (requested s decorated final) = this s /\
    document (page (requested s decorated final)) = document (page s) /\
    listeners (page (requested s decorated final)) = listeners (page s).
Proof.
  intros A I s took r body decorated final B L T [Lo Hi] J N E.
  split; [|repeat split].
  rewrite (authorize_requested _ _ _ _ B L).
  unfold settled. cbn [elapsed outcome]. rewrite (in_time _ T).
  apply Z.leb_le in Lo. apply Z.ltb_lt in Hi. rewrite Lo, Hi, J. cbn [andb].
  now apply onFulfilled_body_status_204.
Qed.

Lemma authorize_body_status_204_is_configuration_error_witness :
  let s := new_vendor sampleConfig samplePage 0 in
  let url := (purchaseConfigBaseUrl_ (this s) ++ "#rid=reader-1")%string in
  let body := JObj [("status", JNum 204); ("access", JBool true)] in
  @authorize sampleAccessSource sampleIntl
    (mkReply 120 (HttpResponse (mkResponse 200 (Some body)))) s =
    (requested s url url, Throw noMatchingConfiguration) /\
  this (requested s url url) = this s /\
  document (page (requested s url url)) = document (page s) /\
  listeners (page (requested s url url)) = listeners (page s).
Proof.
  apply (authorize_body_status_204_is_configuration_error sampleAccessSource sampleIntl
           (new_vendor sampleConfig samplePage 0) 120
           (mkResponse 200 (Some (JObj [("status", JNum 204); ("access", JBool true)])))
           (JObj [("status", JNum 204); ("access", JBool true)])
           (purchaseConfigBaseUrl_ (constructor sampleConfig) ++ "#rid=reader-1")%string
           (purchaseConfigBaseUrl_ (constructor sampleConfig) ++ "#rid=reader-1")%string).
  - reflexivity.
  - reflexivity.
  - reflexivity.
  - cbn. lia.
  - reflexivity.
  - reflexivity.
  - reflexivity.
Defined.

(** X9.  The stored purchase config changes only on a denial: a call whose
    request ends in a response with a status other than 402, in a
    transport error that carries no such response, or in a timeout leaves
    it as it was.  In particular a grant does not clear it. *)
Theorem purchase_config_kept_unless_denied :
  forall (accessSource_ : AccessSource) (intl : Intl) (s : State)
         (reply : NetReply) (decorated final : string),
    buildUrl (JStr (purchaseConfigBaseUrl_ (this s))) false = Normal decorated ->
    getLoginUrl decorated = Normal final ->
    match outcome reply with
    | HttpResponse r => status r <> 402
    | NetworkFailure (ThrownError _ _ (Some r)) => status r <> 402
    | NetworkFailure _ => True
    end \/ AUTHORIZATION_TIMEOUT < elapsed reply ->
    purchaseConfig_ (this (exec (authorize reply) s)) = purchaseConfig_ (this s).
Proof.
  intros A I s reply decorated final B L H.
  unfold exec. rewrite (authorize_requested _ _ _ _ B L).
  assert (K : forall err,
            match err with
            | ThrownError _ _ (Some r) => status r <> 402
            | _ => True
            end ->
            purchaseConfig_
              (this (fst (authorize_onRejected err (requested s decorated final)))) =
            purchaseConfig_ (this s)).
  { intros [kind message [r|]|v] X.
    - now rewrite onRejected_rethrows.
    - now rewrite onRejected_rethrows.
    - destruct (onRejected_value (requested s decorated final) v) as [e ->].
      reflexivity. }
  unfold settled.
  destruct (AUTHORIZATION_TIMEOUT <? elapsed reply) eqn:T; [now apply K|].
  destruct H as [H|H]; [|apply Z.ltb_lt in H; congruence].
  destruct (outcome reply) as [r|e].
  - destruct ((200 <=? status r) && (status r <? 300)); [|now apply K].
    destruct (json_body r) as [body|]; [|now apply K].
    destruct (onFulfilled_state (requested s decorated final) body) as [E|E];
      unfold exec at 1 in E; rewrite E; [reflexivity|].
    now rewrite emptyContainer__keeps_config.
  - apply K. destruct e as [kind message [r|]|v]; auto.
Qed.

Lemma purchase_config_kept_unless_denied_witness :
  let s := with_this (set_purchaseConfig_ samplePurchaseConfig)
             (new_vendor sampleConfig samplePage 0) in
  let grant :=
    mkReply 120 (HttpResponse (mkResponse 200 (Some (JObj [("access", JBool true)])))) in
  purchaseConfig_ (this (exec (@authorize sampleAccessSource sampleIntl grant) s)) =
  purchaseConfig_ (this s).
Proof.
  apply (purchase_config_kept_unless_denied sampleAccessSource sampleIntl
           (with_this (set_purchaseConfig_ samplePurchaseConfig)
              (new_vendor sampleConfig samplePage 0))
           (mkReply 120
              (HttpResponse (mkResponse 200 (Some (JObj [("access", JBool true)])))))
           (purchaseConfigBaseUrl_ (constructor sampleConfig) ++ "#rid=reader-1")%string
           (purchaseConfigBaseUrl_ (constructor sampleConfig) ++ "#rid=reader-1")%string).
  - reflexivity.
  - reflexivity.
  - left. cbn. lia.
Defined.

(** ** What the adapter never changes *)

#[local] Instance same_settings_preorder : PreOrder same_settings.
Proof.
  split.
  - intros s. repeat split.
  - intros a b c [A1 [A2 [A3 A4]]] [B1 [B2 [B3 B4]]].
    repeat split; congruence.
Qed.

(** A method that leaves the adapter's fields alone. *)
Lemma settings_page_only {A} (m : M A) :
  (forall s, this (fst (m s)) = this s) -> preserves same_settings m.
Proof. intros H s. unfold same_settings. now rewrite H. Qed.

Lemma settings_log e : preserves same_settings (log e).
Proof. now apply settings_page_only. Qed.

Lemma settings_fresh : preserves same_settings fresh.
Proof. now apply settings_page_only. Qed.

Lemma settings_listen node type h : preserves same_settings (listen node type h).
Proof. now apply settings_page_only. Qed.

Lemma settings_unlisten l : preserves same_settings (unlisten l).
Proof. now apply settings_page_only. Qed.

Lemma settings_removeChildren c : preserves same_settings (removeChildren c).
Proof. now apply settings_page_only. Qed.

Lemma settings_appendChild c e : preserves same_settings (appendChild c e).
Proof. now apply settings_page_only. Qed.

Lemma settings_set_purchaseConfig x :
  preserves same_settings (update (set_purchaseConfig_ x)).
Proof. intros s. repeat split. Qed.

Lemma settings_set_purchaseButtonListener x :
  preserves same_settings (update (set_purchaseButtonListener_ x)).
Proof. intros s. repeat split. Qed.

Lemma settings_set_alreadyPurchasedListener x :
  preserves same_settings (update (set_alreadyPurchasedListener_ x)).
Proof. intros s. repeat split. Qed.

Lemma settings_set_containerEmpty x :
  preserves same_settings (update (set_containerEmpty_ x)).
Proof. intros s. repeat split. Qed.

Lemma settings_set_innerContainer x :
  preserves same_settings (update (set_innerContainer_ x)).
Proof. intros s. repeat split. Qed.

Lemma settings_set_purchaseButton x :
  preserves same_settings (update (set_purchaseButton_ x)).
Proof. intros s. repeat split. Qed.

#[local] Hint Resolve settings_log settings_fresh settings_listen settings_unlisten
  settings_removeChildren settings_appendChild settings_set_purchaseConfig
  settings_set_purchaseButtonListener settings_set_alreadyPurchasedListener
  settings_set_containerEmpty settings_set_innerContainer settings_set_purchaseButton
  : preserves.

Section Settings.

Context {accessSource_ : AccessSource} {intl : Intl}.

Lemma settings_emptyContainer : preserves same_settings emptyContainer_.
Proof.
  unfold emptyContainer_, vsync_mutatePromise, emptyContainer_mutator, getContainer_,
    user_assertElement.
  repeat preserves_step.
Qed.

Lemma settings_render : preserves same_settings renderPurchaseOverlay_.
Proof.
  unfold renderPurchaseOverlay_, createAlreadyPurchasedLink_, createElement_,
    getContainer_, user_assertElement.
  repeat preserves_step.
Qed.

Lemma settings_authorize reply : preserves same_settings (authorize reply).
Proof.
  pose proof settings_emptyContainer. pose proof settings_render.
  unfold authorize, getPurchaseConfig_, accessSource_buildUrl, accessSource_getLoginUrl,
    xhr_fetchJson, authorize_onFulfilled, authorize_onRejected, catch_, Response_json,
    detached.
  repeat preserves_step.
Qed.

Lemma settings_call_listeners ls node ev :
  preserves same_settings (call_listeners ls node ev).
Proof.
  induction ls as [|l ls IH]; simpl.
  - apply preserves_ret. typeclasses eauto.
  - unfold detached, handler_body, handlePurchase_, accessSource_buildUrl,
      accessSource_loginWithUrl.
    repeat preserves_step.
Qed.

Lemma settings_step s c : same_settings s (step s c).
Proof.
  destruct c as [reply|node ev|]; cbn [step].
  - apply settings_authorize.
  - unfold exec, click. apply settings_call_listeners.
  - reflexivity.
Qed.

Lemma settings_run calls : forall s, same_settings s (run calls s).
Proof.
  induction calls as [|c calls IH]; intros s; cbn.
  - reflexivity.
  - transitivity (step s c); [apply settings_step|apply IH].
Qed.

End Settings.

(** X8.  Whatever is done with the adapter, the fields set by the
    constructor stay as the constructor set them: the adapter config, the
    locale, the messages and the authorization URL template. *)
Theorem settings_never_change :
  forall (accessSource_ : AccessSource) (intl : Intl)
         (config : fewcentsConfig_0_2_Def) (doc : list (string * list Element))
         (first_id : nat) (calls : list Call),
    let s := run calls (new_vendor config doc first_id) in
    fewcentsConfig_ (this s) = config /\
    currentLocale_ (this s) = or_string (locale config) "en" /\
    i18n_ (this s) = i18n_ (constructor config) /\
    purchaseConfigBaseUrl_ (this s) = purchaseConfigBaseUrl_ (constructor config).
Proof.
  intros A I config doc first_id calls s.
  destruct (settings_run calls (new_vendor config doc first_id)) as [E1 [E2 [E3 E4]]].
  fold s in E1, E2, E3, E4. rewrite E1, E2, E3, E4. repeat split.
Qed.

(** ** When no overlay is shown *)



(** ** Denials on a shown overlay *)

Section Redenial.

Context {accessSource_ : AccessSource} {intl : Intl}.

Lemma emptyContainer__clears s kids :
  containerEmpty_ (this s) = false ->
  dialog s = Some kids ->
  dialog (exec emptyContainer_ s) = Some [].
Proof.
  intros C D. unfold exec. rewrite emptyContainer__shown by exact C. cbn [fst].
  explode s. unfold dialog in *. cbn in D |- *.
  destruct pbl, apl; cbn; rewrite D; cbn; now rewrite (lookup_replace_some _ _ _ _ D).
Qed.



End Redenial.



Section Replace.

Context {accessSource_ : AccessSource} {intl : Intl}.

Lemma render_appends s kids text :
  dialog s = Some kids -> formatted_price s = Normal text ->
  is_nullish (purchaseConfig_ (this s)) = false ->
  let s' := exec (detached renderPurchaseOverlay_) s in
  dialog s' = Some (kids ++ [overlay_tree (next_id (page s)) (i18n_ (this s)) text]) /\
  this s' = set_containerEmpty_ false
              (set_alreadyPurchasedListener_ (Some (13 + next_id (page s))%nat)
                 (set_purchaseButtonListener_ (Some (10 + next_id (page s))%nat)
                    (set_purchaseButton_ (Some (9 + next_id (page s))%nat)
                       (set_innerContainer_ (Some (next_id (page s))) (this s))))).
Proof.
  intros D F N s'. unfold s', exec, detached, then_.
  rewrite (render_ok s kids text D F N). cbn [fst snd ret].
  split; [|reflexivity].
  unfold dialog in *. unfold rendered. cbn [page document].
  apply (lookup_replace_some _ _ _ _ D).
Qed.

Lemma emptyContainer__dialog s kids :
  dialog s = Some kids ->
  let s' := exec emptyContainer_ s in
  dialog s' = Some (if containerEmpty_ (this s) then kids else []) /\
  next_id (page s') = next_id (page s) /\
  i18n_ (this s') = i18n_ (this s) /\
  purchaseConfig_ (this s') = purchaseConfig_ (this s).
Proof.
  intros D s'. unfold s'. split; [|split; [|split]].
  - destruct (containerEmpty_ (this s)) eqn:C.
    + unfold exec. now rewrite emptyContainer__empty.
    + now apply (emptyContainer__clears s kids).
  - unfold exec. destruct (containerEmpty_ (this s)) eqn:C.
    + now rewrite emptyContainer__empty.
    + rewrite emptyContainer__shown by exact C. cbn [fst].
      explode s. unfold dialog in D. cbn in D |- *.
      destruct pbl, apl; cbn; rewrite D; reflexivity.
  - unfold exec. destruct (containerEmpty_ (this s)) eqn:C.
    + now rewrite emptyContainer__empty.
    + rewrite emptyContainer__shown by exact C. reflexivity.
  - apply emptyContainer__keeps_config.
Qed.

End Replace.

(** X12.  A 402 response that arrives in time with a config the formatter
    accepts leaves exactly this in the dialog container: on a container
    the adapter holds to be empty, what the page had there followed by the
    new overlay; on a container marked as filled, the new overlay alone,
    everything that was there before being removed.  The overlay is built
    from the next free node id with the adapter's messages and the
    formatted price, the body is stored as the purchase config, and the
    call resolves with [{access: false}]. *)
Theorem denial_replaces_dialog_content :
  forall (accessSource_ : AccessSource) (intl : Intl)
         s took body kids text decorated final,
    buildUrl (JStr (purchaseConfigBaseUrl_ (this s))) false = Normal decorated ->
    getLoginUrl decorated = Normal final ->
    took < AUTHORIZATION_TIMEOUT ->
    dialog s = Some kids ->
    is_nullish body = false ->
    (let price := opt_member (opt_member body "purchase_options") "price" in
     NumberFormat_currency "en-EN" (opt_member price "currency")
       (opt_member price "amount")) = Normal text ->
    let reply := mkReply took (HttpResponse (mkResponse 402 (Some body))) in
    let s' := exec (authorize reply) s in
    result (authorize reply) s = Normal (mkAccess (JBool false)) /\
    dialog s' =
      Some ((if containerEmpty_ (this s) then kids else []) ++
            [overlay_tree (next_id (page s)) (i18n_ (this s)) text]) /\
    purchaseConfig_ (this s') = body /\
    containerEmpty_ (this s') = false.
Proof.
  intros A I s took body kids text decorated final B L T D N F reply s'.
  assert (A1 : authorize reply s =
               (exec (detached renderPurchaseOverlay_)
                  (exec emptyContainer_
                     (with_this (set_purchaseConfig_ body)
                        (requested s decorated final))),
                Normal (mkAccess (JBool false)))).
  { unfold reply. rewrite (authorize_requested _ _ _ _ B L).
    unfold settled. cbn [elapsed outcome status]. rewrite (in_time _ T).
    cbn [Z.leb Z.ltb Z.compare Pos.compare Pos.compare_cont andb].
    now rewrite (onRejected_402 _ _ _ (mkResponse 402 (Some body)) eq_refl). }
  assert (A2 : s' = exec (detached renderPurchaseOverlay_)
                  (exec emptyContainer_
                     (with_this (set_purchaseConfig_ body)
                        (requested s decorated final))))
    by (unfold s'; unfold exec at 1; now rewrite A1).
  unfold result. rewrite A2, A1. cbn [snd]. clear A1 A2 s'.
  set (s0 := with_this (set_purchaseConfig_ body) (requested s decorated final)).
  assert (D0 : dialog s0 = Some kids) by exact D.
  destruct (emptyContainer__dialog s0 kids D0) as [D1 [N1 [M1 P1]]].
  set (s1 := exec emptyContainer_ s0) in *.
  assert (P : purchaseConfig_ (this s1) = body).
  { rewrite P1. unfold s0. explode s. reflexivity. }
  assert (F1 : formatted_price s1 = Normal text).
  { unfold formatted_price, option_price. rewrite P. exact F. }
  assert (Nn : is_nullish (purchaseConfig_ (this s1)) = false) by now rewrite P.
  destruct (render_appends s1 _ text D1 F1 Nn) as [R1 R2].
  split; [reflexivity|]. split; [|split].
  - rewrite R1, N1, M1. unfold s0. explode s. reflexivity.
  - rewrite R2. cbn. exact P.
  - rewrite R2. reflexivity.
Qed.

Lemma denial_replaces_dialog_content_witness :
  let note := El 900%nat "p" "note" (JStr "Subscribers only") [] in
  let s := new_vendor sampleConfig [("amp-access-fewcents-dialog", [note])] 0%nat in
  let url := (purchaseConfigBaseUrl_ (constructor sampleConfig) ++ "#rid=reader-1")%string in
  let reply := mkReply 120 (HttpResponse (mkResponse 402 (Some samplePurchaseConfig))) in
  let once := exec (@authorize sampleAccessSource sampleIntl reply) s in
  let twice := exec (@authorize sampleAccessSource sampleIntl reply) once in
  (dialog once =
     Some ([note] ++ [overlay_tree 0%nat (i18n_ (this s)) "EUR 1.50"]) /\
   purchaseConfig_ (this once) = samplePurchaseConfig) /\
  (dialog twice =
     Some ([] ++ [overlay_tree (next_id (page once)) (i18n_ (this once)) "EUR 1.50"]) /\
   containerEmpty_ (this twice) = false).
Proof.
  intros note s url reply once twice. split.
  - destruct (denial_replaces_dialog_content sampleAccessSource sampleIntl
                s 120 samplePurchaseConfig [note] "EUR 1.50" url url)
      as [_ [H1 [H2 _]]]; try reflexivity.
    split; [exact H1 | exact H2].
  - destruct (denial_replaces_dialog_content sampleAccessSource sampleIntl
                once 120 samplePurchaseConfig
                ([note] ++ [overlay_tree 0%nat (i18n_ (this s)) "EUR 1.50"])
                "EUR 1.50" url url)
      as [_ [H1 [_ H2]]]; try (vm_compute; reflexivity).
    split; [exact H1 | exact H2].
Defined.

(** ** What [renderContainer] and a click leave alone *)

(** X13.  [renderContainer()] renders nothing.  It returns the dialog
    container of the page, or fails with the assertion error when the
    page has none; the element it creates is never attached, so the
    document, the listeners, every field of the adapter and the trace
    are as before, and calling it any number of times never shows an
    overlay. *)
Theorem renderContainer_attaches_nothing :
  forall s,
    let s' := exec renderContainer s in
    result renderContainer s =
      (match dialog s with
       | Some _ => Normal dialog_id
       | None => Throw assertion_failure
       end) /\
    this s' = this s /\
    document (page s') = document (page s) /\
    listeners (page s') = listeners (page s) /\
    trace (page s') = trace (page s) /\
    (forall times, dialog (Nat.iter times (exec renderContainer) s) = dialog s).
Proof.
  assert (K : forall s,
             renderContainer s =
               match dialog s with
               | Some _ =>
                   (with_page (fun p => set_next_id (S (next_id p)) p) s,
                    Normal dialog_id)
               | None => (s, Throw assertion_failure)
               end).
  { intros s. unfold renderContainer, bind at 1.
    destruct (dialog s) as [kids|] eqn:D.
    - rewrite (getContainer__present _ _ D). reflexivity.
    - rewrite (getContainer__absent _ D). reflexivity. }
  assert (D1 : forall s, dialog (exec renderContainer s) = dialog s).
  { intros s. unfold exec. rewrite K.
    destruct (dialog s) eqn:D; [|exact D]. explode s. exact D. }
  assert (Dn : forall times s,
              dialog (Nat.iter times (exec renderContainer) s) = dialog s).
  { induction times as [|t IH]; intros s; [reflexivity|].
    now rewrite Nat.iter_succ, D1. }
  intros s s'. unfold s', result, exec. rewrite K.
  destruct (dialog s) as [kids|] eqn:D.
  - cbn [fst snd]. explode s. repeat split. intros times. now rewrite Dn.
  - cbn [fst snd]. repeat split. intros times. now rewrite Dn.
Qed.

(** X14.  A click, on any element and in any state, never fails into the
    browser's dispatch and changes nothing the adapter or the page holds:
    the adapter's fields, the document and the registered listeners are as
    before, and no listener is added or removed. *)
Theorem click_changes_nothing :
  forall (accessSource_ : AccessSource) (intl : Intl) node ev s,
    let s' := exec (click node ev) s in
    this s' = this s /\
    document (page s') = document (page s) /\
    listeners (page s') = listeners (page s) /\
    forall l,
      count (is_listen l) (trace (page s')) = count (is_listen l) (trace (page s)) /\
      count (is_unlisten l) (trace (page s')) = count (is_unlisten l) (trace (page s)).
Proof.
  intros A I node ev s s'.
  assert (Q : quiet s s')
    by exact (quiet_call_listeners (listeners (page s)) node ev s).
  destruct Q as [T [D [L [_ [rest [E B]]]]]].
  split; [exact T|]. split; [exact D|]. split; [exact L|]. intros l.
  rewrite E. destruct (benign_counts rest l B) as [C1 C2].
  rewrite !count_app, C1, C2. split; lia.
Qed.
